(** * Shallow embedding of the user API validator and the batch file aggregator

    Two independent Python components are modelled:
    - module [Api]: [validate_email], [validate_name], [validate_user_data]
      and the [create_user] handler of
      [task-1-rest-api-endpoint/AI-generated_api.py], over the fragment of
      [re] in module [Re];
    - module [Refactor]: [validate_file_path], [load_json_file],
      [extract_user_data] and [process_user_files] of
      [task-2-error-handling-refactor/AI-generated_refactor.py]; modules
      [Original] and [HumanWritten]: the [process_user_files] of
      [original.py] and of [human-written_refactor.py].

    Python values are an inductive universe, a Python [str] is the list of
    its code points, a Python [float] is an IEEE binary64 value of
    [SpecFloat], and statements run in a monad that threads the mutable
    state (the logger output, the lists a call accumulates) and carries
    exceptions. What the code takes from outside, the builtins [str],
    [repr] and [float] on strings and the file system, are parameters. *)

From Stdlib Require Import ZArith NArith List String Ascii Bool Lia.
From Stdlib Require Import Floats.SpecFloat.
Import ListNotations.

Set Implicit Arguments.
Set Warnings "-register-all".

(** ** Python strings: sequences of Unicode code points *)

Definition str := list N.

(** The code points of an ASCII literal of the source. *)
Definition lit (s : string) : str := map N_of_ascii (list_ascii_of_string s).

Definition cp (c : ascii) : N := N_of_ascii c.

Definition str_eq_dec : forall a b : str, {a = b} + {a <> b} :=
  list_eq_dec N.eq_dec.

Definition str_eqb (a b : str) : bool := if str_eq_dec a b then true else false.

(** ** Python values (the image of [json.load], which is all the code sees) *)

Inductive pyval :=
| PyNone
| PyBool (b : bool)
| PyInt (z : Z)
| PyFloat (f : spec_float)
| PyStr (s : str)
| PyList (l : list pyval)
| PyDict (d : list (str * pyval)).

(** A [dict] is kept as its items; [json.load] yields distinct keys. *)
Definition dict := list (str * pyval).

(** [key in d] and [d[key]] *)
Fixpoint dict_lookup (key : str) (d : dict) : option pyval :=
  match d with
  | [] => None
  | (k, v) :: d' => if str_eqb k key then Some v else dict_lookup key d'
  end.

(** [d.get(key, default)] *)
Definition dict_get (d : dict) (key : str) (default : pyval) : pyval :=
  match dict_lookup key d with
  | Some v => v
  | None => default
  end.

(** [isinstance(v, str)] and [isinstance(v, list)] *)
Definition is_str (v : pyval) : bool :=
  match v with PyStr _ => true | _ => false end.
Definition is_list (v : pyval) : bool :=
  match v with PyList _ => true | _ => false end.

(** Truth value of an object, as [not v] tests it. *)
Definition truthy (v : pyval) : bool :=
  match v with
  | PyNone => false
  | PyBool b => b
  | PyInt z => negb (z =? 0)%Z
  | PyFloat f => match f with S754_zero _ => false | _ => true end
  | PyStr s => match s with [] => false | _ => true end
  | PyList l => match l with [] => false | _ => true end
  | PyDict d => match d with [] => false | _ => true end
  end.

(** [type(v).__name__] *)
Definition type_name (v : pyval) : str :=
  match v with
  | PyNone => lit "NoneType"
  | PyBool _ => lit "bool"
  | PyInt _ => lit "int"
  | PyFloat _ => lit "float"
  | PyStr _ => lit "str"
  | PyList _ => lit "list"
  | PyDict _ => lit "dict"
  end.

(** ** Floats: IEEE 754 binary64 *)

Definition prec : Z := 53.
Definition emax : Z := 1024.

Definition float_add : spec_float -> spec_float -> spec_float := SFadd prec emax.

(** Nearest binary64 value of an integer, ties to even; an infinity
    signals that the integer is out of range. *)
Definition float_of_Z (z : Z) : spec_float := binary_normalize prec emax z 0 false.

(** [f == z] for a float [f] and an int [z]: exact comparison. *)
Definition float_eq_Z (f : spec_float) (z : Z) : bool :=
  match f with
  | S754_zero _ => (z =? 0)%Z
  | S754_finite s m e =>
      let v := if s then Z.neg m else Z.pos m in
      if (0 <=? e)%Z then (Z.shiftl v e =? z)%Z
      else (v =? Z.shiftl z (- e))%Z
  | _ => false
  end.

(** ** Exceptions *)

(** The classes the handlers name or the modelled operations raise. Every
    one of them derives from [Exception]. *)
Inductive exn_class :=
| FileNotFoundError
| PermissionError
| IsADirectoryError
| OSError
| UnicodeDecodeError
| JSONDecodeError
| ValueError
| TypeError
| OverflowError
| KeyError
| AttributeError
| RecursionError
| MemoryError
| OtherException (name : string).

Definition exn_class_eq_dec : forall a b : exn_class, {a = b} + {a <> b}.
Proof. decide equality. apply string_dec. Defined.

(** Direct base class; [None] stands for [Exception] itself. *)
Definition base_class (c : exn_class) : option exn_class :=
  match c with
  | FileNotFoundError | PermissionError | IsADirectoryError => Some OSError
  | UnicodeDecodeError | JSONDecodeError => Some ValueError
  | _ => None
  end.

(** [issubclass(c, c')]; the hierarchy above has depth two. *)
Definition subclass (c c' : exn_class) : bool :=
  if exn_class_eq_dec c c' then true
  else match base_class c with
       | Some b => if exn_class_eq_dec b c' then true else false
       | None => false
       end.

Inductive exn :=
| FileProcessingError (file_path : str) (message : str) (original_error : option exn)
| Builtin (cls : exn_class) (text : str).

(** [str(e)]: [FileProcessingError.__init__] passes
    [f"{message} (file: {file_path})"] to [Exception.__init__]. *)
Definition exn_str (e : exn) : str :=
  match e with
  | FileProcessingError file_path message _ =>
      message ++ lit " (file: " ++ file_path ++ lit ")"
  | Builtin _ text => text
  end.

(** [isinstance(e, c)] for a built-in class [c]. *)
Definition exn_is (e : exn) (c : exn_class) : bool :=
  match e with
  | Builtin c0 _ => subclass c0 c
  | FileProcessingError _ _ _ => false
  end.

(** ** Logging *)

Inductive level := INFO | WARNING | ERROR.

(** The pieces of an f-string; values are kept, not rendered. *)
Inductive frag :=
| Txt (s : string)
| FStr (s : str)
| FVal (v : pyval)
| FType (v : pyval)
| FExn (e : exn)
| FLen (n : nat).

Definition log_record := (level * list frag)%type.

(** ** The monad: mutable state and exceptions *)

Inductive outcome (A : Type) :=
| Return (a : A)
| Raise (e : exn).
Arguments Raise {A} e.

Section Monad.
Context {S : Type}.

Definition M (A : Type) := S -> outcome A * S.

Definition ret {A} (a : A) : M A := fun s => (Return a, s).

Definition bind {A B} (m : M A) (k : A -> M B) : M B :=
  fun s => match m s with
           | (Return a, s') => k a s'
           | (Raise e, s') => (Raise e, s')
           end.

Definition raise {A} (e : exn) : M A := fun s => (Raise e, s).

(** [try: m / except Exception as e: h e]; state changes made before the
    exception are kept. *)
Definition try_except {A} (m : M A) (h : exn -> M A) : M A :=
  fun s => match m s with
           | (Return a, s') => (Return a, s')
           | (Raise e, s') => h e s'
           end.

Definition modify (f : S -> S) : M unit := fun s => (Return tt, f s).

Definition gets {A} (f : S -> A) : M A := fun s => (Return (f s), s).

(** An operation of the environment whose outcome is given. *)
Definition perform {A} (o : outcome A) : M A := fun s => (o, s).
End Monad.
Arguments M : clear implicits.

Declare Scope py_scope.
Delimit Scope py_scope with py.
Notation "x <- m ;; k" := (bind m (fun x => k))
  (at level 61, m at next level, right associativity) : py_scope.
Notation "m ;; k" := (bind m (fun _ => k))
  (at level 61, right associativity) : py_scope.

(** State that carries the logger output. *)
Class Logging (S : Type) := write_log : log_record -> S -> S.

Definition log {S} `{Logging S} (l : level) (msg : list frag) : M S unit :=
  modify (write_log (l, msg)).

#[export] Instance Logging_list : Logging (list log_record) :=
  fun r s => s ++ [r].

(** [for x in l: body x] *)
Fixpoint for_each {S A} (l : list A) (body : A -> M S unit) : M S unit :=
  match l with
  | [] => ret tt
  | x :: l' => (body x ;; for_each l' body)%py
  end.

(** ** Whitespace, [str.strip] and [str.lower] *)

(** The code points for which [str.isspace] holds; [str.strip()] and the
    [\s] of [re] (on [str] patterns) both use this set. *)
Definition is_space (c : N) : bool :=
  ((9 <=? c) && (c <=? 13) || (28 <=? c) && (c <=? 32)
   || (c =? 133) || (c =? 160) || (c =? 5760)
   || (8192 <=? c) && (c <=? 8202) || (c =? 8232) || (c =? 8233)
   || (c =? 8239) || (c =? 8287) || (c =? 12288))%N.

Fixpoint lstrip (s : str) : str :=
  match s with
  | c :: s' => if is_space c then lstrip s' else s
  | [] => []
  end.

Definition rstrip (s : str) : str := rev (lstrip (rev s)).

(** [s.strip()] *)
Definition strip (s : str) : str := rstrip (lstrip s).

(** [s.lower()] on ASCII letters; an address accepted by [validate_email]
    has no other cased character. *)
Definition lower_char (c : N) : N :=
  if ((65 <=? c) && (c <=? 90))%N then (c + 32)%N else c.

Definition lower (s : str) : str := map lower_char s.

(** ** The fragment of [re] the two patterns use *)

Module Re.

(** Members of a bracketed character set. *)
Inductive citem :=
| CRange (lo hi : ascii)   (* lo-hi *)
| COne (c : ascii)         (* a single character *)
| CSpace.                  (* \s *)

Definition citem_mem (c : N) (i : citem) : bool :=
  match i with
  | CRange lo hi => ((cp lo <=? c) && (c <=? cp hi))%N
  | COne x => (c =? cp x)%N
  | CSpace => is_space c
  end.

Definition in_set (cs : list citem) (c : N) : bool := existsb (citem_mem c) cs.

Inductive node :=
| Bol                                   (* ^ *)
| Eol                                   (* $ *)
| Lit (c : ascii)                       (* an (escaped) literal *)
| Rep (cs : list citem) (min : nat).    (* [cs]{min,}; [cs]+ is {1,} *)

Definition pattern := list node.

(** [$] without MULTILINE: at the end of the string, or just before a
    newline that is the last character. *)
Definition at_eol (s : str) : bool :=
  match s with
  | [] => true
  | [c] => (c =? 10)%N
  | _ => false
  end.

(** Backtracking match of [p] against the text [s] that remains;
    [at_start] tells whether nothing has been consumed yet. A greedy
    repetition takes a character when it can and otherwise, or when the
    rest fails, hands over to the rest of the pattern. *)
Fixpoint match_here (p : pattern) (at_start : bool) (s : str) : bool :=
  match p with
  | [] => true
  | Bol :: p' => at_start && match_here p' at_start s
  | Eol :: p' => at_eol s && match_here p' at_start s
  | Lit c :: p' =>
      match s with
      | x :: s' => (x =? cp c)%N && match_here p' false s'
      | [] => false
      end
  | Rep cs min :: p' =>
      (fix rep (min : nat) (at_start : bool) (s : str) {struct s} : bool :=
         match s with
         | x :: s' =>
             in_set cs x && rep (pred min) false s'
             || Nat.eqb min 0 && match_here p' at_start s
         | [] => Nat.eqb min 0 && match_here p' at_start []
         end) min at_start s
  end.

(** [bool(re.match(p, s))]: the match is anchored at the start only. *)
Definition re_match (p : pattern) (s : str) : bool := match_here p true s.

End Re.

(** ** The REST endpoint: [AI-generated_api.py] *)

Module Api.
Import Re.

(** [r'^[a-zA-Z0-9._%+-]+@[a-zA-Z0-9.-]+\.[a-zA-Z]{2,}$'] *)
Definition email_pattern : pattern :=
  [ Bol;
    Rep [CRange "a" "z"; CRange "A" "Z"; CRange "0" "9";
         COne "."; COne "_"; COne "%"; COne "+"; COne "-"] 1;
    Lit "@";
    Rep [CRange "a" "z"; CRange "A" "Z"; CRange "0" "9"; COne "."; COne "-"] 1;
    Lit ".";
    Rep [CRange "a" "z"; CRange "A" "Z"] 2;
    Eol ].

(** [r"^[a-zA-Z\s'-]+$"] *)
Definition name_pattern : pattern :=
  [ Bol;
    Rep [CRange "a" "z"; CRange "A" "Z"; CSpace; COne "'"; COne "-"] 1;
    Eol ].

Definition validate_email (email : pyval) : bool :=
  if negb (truthy email) || negb (is_str email) then false
  else
    match email with
    | PyStr s => re_match email_pattern s
    | _ => false
    end.

Definition validate_name (name : pyval) : bool * str :=
  if negb (truthy name) || negb (is_str name)
  then (false, lit "Name must be a non-empty string")
  else
    match name with
    | PyStr s =>
        let name := strip s in
        if (List.length name <? 2)%nat
        then (false, lit "Name must be at least 2 characters long")
        else if (100 <? List.length name)%nat
        then (false, lit "Name must not exceed 100 characters")
        else if negb (re_match name_pattern name)
        then (false, lit "Name contains invalid characters")
        else (true, [])
    | _ => (false, lit "Name must be a non-empty string")
    end.

(** [v.strip()] and [v.lower()] as method calls on an arbitrary object. *)
Definition py_strip (v : pyval) : outcome pyval :=
  match v with
  | PyStr s => Return (PyStr (strip s))
  | _ => Raise (Builtin AttributeError
                  (lit "'" ++ type_name v ++ lit "' object has no attribute 'strip'"))
  end.

Definition py_lower (v : pyval) : outcome pyval :=
  match v with
  | PyStr s => Return (PyStr (lower s))
  | _ => Raise (Builtin AttributeError
                  (lit "'" ++ type_name v ++ lit "' object has no attribute 'lower'"))
  end.

Section Handler.
Context {S : Type} `{Logging S}.
Local Open Scope py_scope.

Definition validate_user_data (data : pyval) : M S (bool * str * dict) :=
  match data with
  | PyDict d =>
      match dict_lookup (lit "email") d with
      | None => ret (false, lit "Missing required field: email", [])
      | Some _ =>
          match dict_lookup (lit "name") d with
          | None => ret (false, lit "Missing required field: name", [])
          | Some _ =>
              let email := dict_get d (lit "email") PyNone in
              let name := dict_get d (lit "name") PyNone in
              if negb (validate_email email)
              then ret (false, lit "Invalid email format", [])
              else
                let '(name_valid, name_error) := validate_name name in
                if negb name_valid then ret (false, name_error, [])
                else
                  e1 <- perform (py_strip email) ;;
                  e2 <- perform (py_lower e1) ;;
                  n1 <- perform (py_strip name) ;;
                  ret (true, [], [(lit "email", e2); (lit "name", n1)])
          end
      end
  | _ => ret (false, lit "Request body must be a JSON object", [])
  end.

(** The [try] block of [create_user]; [get_json] is the outcome of
    [request.get_json()]. *)
Definition create_user_try (get_json : outcome pyval) : M S (dict * Z) :=
  data <- perform get_json ;;
  match data with
  | PyNone =>
      log WARNING [Txt "Request received with no JSON body"] ;;
      ret ([(lit "error", PyStr (lit "Request body required"));
            (lit "message", PyStr (lit "Expected JSON request body with user data"))],
           400%Z)
  | _ =>
      r <- validate_user_data data ;;
      let '(is_valid, error_message, validated_data) := r in
      if negb is_valid then
        log WARNING [Txt "Validation failed: "; FStr error_message] ;;
        ret ([(lit "error", PyStr (lit "Validation failed"));
              (lit "message", PyStr error_message)], 400%Z)
      else
        match dict_lookup (lit "email") validated_data,
              dict_lookup (lit "name") validated_data with
        | Some email, Some name =>
            log INFO [Txt "User created successfully: "; FVal email] ;;
            ret ([(lit "id", PyInt 1); (lit "email", email); (lit "name", name);
                  (lit "created_at", PyStr (lit "2025-01-04T00:00:00Z"))], 201%Z)
        | None, _ => raise (Builtin KeyError (lit "'email'"))
        | _, None => raise (Builtin KeyError (lit "'name'"))
        end
  end.

(** The body sent with status 500. *)
Definition internal_error_body : dict :=
  [(lit "error", PyStr (lit "Internal server error"));
   (lit "message", PyStr (lit "An unexpected error occurred processing your request"))].

Definition create_user (get_json : outcome pyval) : M S (dict * Z) :=
  try_except (create_user_try get_json)
    (fun e =>
       log ERROR [Txt "Unexpected error in create_user: "; FStr (exn_str e)] ;;
       ret (internal_error_body, 500%Z)).
End Handler.

End Api.

(** ** The batch aggregator: [AI-generated_refactor.py] and its references *)

(** A Python number: the accumulator [total_value] and the result of [sum]. *)
Inductive num :=
| NInt (z : Z)
| NFloat (f : spec_float).

(** The result dictionaries [{'file', 'user_count', 'total_value'}]. *)
Record FileSummary := {
  file : str;
  user_count : nat;
  total_value : num
}.

(** The error dictionaries [{'file', 'error'}]. *)
Record ProcessingError := {
  pe_file : pyval;
  pe_error : str
}.

Definition pe_val (e : ProcessingError) : pyval :=
  PyDict [(lit "file", pe_file e); (lit "error", PyStr (pe_error e))].

(** What the code takes from Python and from the operating system. *)
Record builtins := {
  (** [str(v)] *)
  py_str : pyval -> str;
  (** [repr(v)] *)
  py_repr : pyval -> str;
  (** [float(s)] for a [str]: the parsed value, or [None] for ValueError *)
  float_of_str : str -> option spec_float
}.

Record filesystem := {
  (** [Path(p).exists() and Path(p).is_file()] *)
  fs_is_file : str -> outcome bool;
  (** [with open(p, 'r', encoding='utf-8') as f: json.load(f)] *)
  fs_json : str -> outcome pyval
}.

Definition overflow_error : exn :=
  Builtin OverflowError (lit "int too large to convert to float").

(** [float(z)] for an [int] *)
Definition float_of_int (z : Z) : outcome spec_float :=
  match float_of_Z z with
  | S754_infinity _ => Raise overflow_error
  | f => Return f
  end.

(** [float(v)] *)
Definition py_float (B : builtins) (v : pyval) : outcome spec_float :=
  match v with
  | PyInt z => float_of_int z
  | PyBool b => float_of_int (if b then 1 else 0)
  | PyFloat f => Return f
  | PyStr s =>
      match float_of_str B s with
      | Some f => Return f
      | None => Raise (Builtin ValueError
                         (lit "could not convert string to float: " ++ py_repr B v))
      end
  | _ => Raise (Builtin TypeError
                  (lit "float() argument must be a string or a real number, not '"
                   ++ type_name v ++ lit "'"))
  end.

(** [total + f] for a float [f]: an [int] total is converted first. *)
Definition num_add_float (total : num) (f : spec_float) : outcome num :=
  match total with
  | NInt z =>
      match float_of_int z with
      | Return g => Return (NFloat (float_add g f))
      | Raise e => Raise e
      end
  | NFloat g => Return (NFloat (float_add g f))
  end.

(** [total == z] for an [int] [z] *)
Definition num_eq_Z (total : num) (z : Z) : bool :=
  match total with
  | NInt a => (a =? z)%Z
  | NFloat f => float_eq_Z f z
  end.

Module Refactor.

(** The logger output and the two lists [process_user_files] fills. *)
Record state := {
  logged : list log_record;
  results : list FileSummary;
  errors : list ProcessingError
}.

#[export] Instance Logging_state : Logging state :=
  fun r s => {| logged := logged s ++ [r]; results := results s; errors := errors s |}.

(** [results = v], [errors = v], [results.append(r)], [errors.append(e)] *)
Definition set_results (v : list FileSummary) (s : state) : state :=
  {| logged := logged s; results := v; errors := errors s |}.
Definition set_errors (v : list ProcessingError) (s : state) : state :=
  {| logged := logged s; results := results s; errors := v |}.
Definition results_append (r : FileSummary) : M state unit :=
  modify (fun s => set_results (results s ++ [r]) s).
Definition errors_append (e : ProcessingError) : M state unit :=
  modify (fun s => set_errors (errors s ++ [e]) s).

Section WithEnvironment.
Variable B : builtins.
Variable FS : filesystem.
Local Open Scope py_scope.

Definition validate_file_path (file_path : str) : M state bool :=
  try_except (perform (fs_is_file FS file_path))
    (fun e =>
       log ERROR [Txt "Error validating path "; FStr file_path; Txt ": "; FExn e] ;;
       ret false).

Definition load_json_file (file_path : str) : M state (option dict) :=
  try_except
    (data <- perform (fs_json FS file_path) ;;
     match data with
     | PyDict d => ret (Some d)
     | _ => raise (FileProcessingError file_path
                     (lit "File does not contain a JSON object") None)
     end)
    (fun e =>
       if exn_is e FileNotFoundError then
         log WARNING [Txt "File not found: "; FStr file_path] ;;
         raise (FileProcessingError file_path (lit "File not found") (Some e))
       else if exn_is e JSONDecodeError then
         log ERROR [Txt "Invalid JSON in "; FStr file_path; Txt ": "; FExn e] ;;
         raise (FileProcessingError file_path
                  (lit "Invalid JSON format: " ++ exn_str e) (Some e))
       else if exn_is e PermissionError then
         log ERROR [Txt "Permission denied reading "; FStr file_path; Txt ": "; FExn e] ;;
         raise (FileProcessingError file_path (lit "Permission denied") (Some e))
       else if exn_is e UnicodeDecodeError then
         log ERROR [Txt "Encoding error in "; FStr file_path; Txt ": "; FExn e] ;;
         raise (FileProcessingError file_path (lit "File encoding error") (Some e))
       else
         log ERROR [Txt "Unexpected error loading "; FStr file_path; Txt ": "; FExn e] ;;
         raise (FileProcessingError file_path
                  (lit "Unexpected error: " ++ exn_str e) (Some e))).

(** The [for idx, user in enumerate(users)] loop of [extract_user_data]. *)
Fixpoint sum_values (file_path : str) (users : list pyval) (idx : nat)
    (total_value : num) : M state num :=
  match users with
  | [] => ret total_value
  | user :: rest =>
      match user with
      | PyDict d =>
          let value := dict_get d (lit "value") (PyInt 0) in
          total_value <-
            try_except
              (f <- perform (py_float B value) ;;
               perform (num_add_float total_value f))
              (fun e =>
                 if exn_is e TypeError || exn_is e ValueError then
                   log WARNING [Txt "Invalid value for user at index "; FLen idx;
                                Txt " in "; FStr file_path; Txt ": "; FExn e] ;;
                   ret total_value
                 else raise e) ;;
          sum_values file_path rest (S idx) total_value
      | _ =>
          log WARNING [Txt "Invalid user entry at index "; FLen idx;
                       Txt " in "; FStr file_path; Txt ": not a dict"] ;;
          sum_values file_path rest (S idx) total_value
      end
  end.

Definition extract_user_data (data : dict) (file_path : str) : M state FileSummary :=
  try_except
    (users <-
       match dict_lookup (lit "users") data with
       | None =>
           log WARNING [Txt "No 'users' key in "; FStr file_path;
                        Txt ", using empty list"] ;;
           ret (PyList [])
       | Some v => ret v
       end ;;
     match users with
     | PyList users =>
         total_value <- sum_values file_path users 0 (NInt 0) ;;
         ret {| file := file_path;
                user_count := List.length users;
                total_value := total_value |}
     | _ => raise (FileProcessingError file_path
                     (lit "'users' field must be a list") None)
     end)
    (fun e =>
       match e with
       | FileProcessingError _ _ _ => raise e
       | _ =>
           log ERROR [Txt "Error extracting user data from "; FStr file_path;
                      Txt ": "; FExn e] ;;
           raise (FileProcessingError file_path
                    (lit "Data extraction error: " ++ exn_str e) (Some e))
       end).

(** One iteration of [for path in file_paths]. *)
Definition process_path (path : pyval) : M state unit :=
  try_except
    (match path with
     | PyStr p =>
         ok <- validate_file_path p ;;
         if negb ok then
           log WARNING [Txt "Skipping invalid or inaccessible path: "; FStr p] ;;
           errors_append
             {| pe_file := path;
                pe_error := lit "File does not exist or is not accessible" |}
         else
           data <- load_json_file p ;;
           match data with
           | None =>
               errors_append {| pe_file := path; pe_error := lit "Failed to load file" |}
           | Some d =>
               result <- extract_user_data d p ;;
               results_append result ;;
               log INFO [Txt "Successfully processed "; FStr p; Txt ": ";
                         FLen (user_count result); Txt " users, total value ";
                         FVal (match total_value result with
                               | NInt z => PyInt z
                               | NFloat f => PyFloat f
                               end)]
           end
     | _ =>
         log ERROR [Txt "Invalid path type: "; FType path] ;;
         errors_append
           {| pe_file := PyStr (py_str B path); pe_error := lit "Invalid path type" |}
     end)
    (fun e =>
       match e with
       | FileProcessingError file_path message _ =>
           errors_append {| pe_file := PyStr file_path; pe_error := message |}
       | _ =>
           log ERROR [Txt "Unexpected error processing "; FVal path; Txt ": "; FExn e] ;;
           errors_append
             {| pe_file := path; pe_error := lit "Unexpected error: " ++ exn_str e |}
       end).

Definition process_user_files (file_paths : pyval) : M state (list FileSummary) :=
  match file_paths with
  | PyList paths =>
      match paths with
      | [] =>
          log WARNING [Txt "Empty file_paths list provided"] ;;
          ret []
      | _ =>
          modify (set_results []) ;;
          modify (set_errors []) ;;
          log INFO [Txt "Processing "; FLen (List.length paths); Txt " files"] ;;
          for_each paths process_path ;;
          success_count <- gets (fun s => List.length (results s)) ;;
          error_count <- gets (fun s => List.length (errors s)) ;;
          log INFO [Txt "Processing complete: "; FLen success_count;
                    Txt " succeeded, "; FLen error_count; Txt " failed"] ;;
          errs <- gets errors ;;
          match errs with
          | [] => ret tt
          | _ => log WARNING [Txt "Errors encountered: "; FVal (PyList (map pe_val errs))]
          end ;;
          gets results
      end
  | _ => raise (Builtin ValueError (lit "file_paths must be a list"))
  end.

End WithEnvironment.

End Refactor.

(** *** The operations the reference variants apply to unchecked values *)

Definition attribute_error (v : pyval) (attr : string) : exn :=
  Builtin AttributeError
    (lit "'" ++ type_name v ++ lit "' object has no attribute '" ++ lit attr ++ lit "'").

(** [v.get(key, default)] *)
Definition py_get (v : pyval) (key : str) (default : pyval) : outcome pyval :=
  match v with
  | PyDict d => Return (dict_get d key default)
  | _ => Raise (attribute_error v "get")
  end.

(** [len(v)] *)
Definition py_len (v : pyval) : outcome nat :=
  match v with
  | PyList l => Return (List.length l)
  | PyStr s => Return (List.length s)
  | PyDict d => Return (List.length d)
  | _ => Raise (Builtin TypeError
                  (lit "object of type '" ++ type_name v ++ lit "' has no len()"))
  end.

(** The items [for u in v] visits. *)
Definition py_iter (v : pyval) : outcome (list pyval) :=
  match v with
  | PyList l => Return l
  | PyStr s => Return (map (fun c => PyStr [c]) s)
  | PyDict d => Return (map (fun kv => PyStr (fst kv)) d)
  | _ => Raise (Builtin TypeError
                  (lit "'" ++ type_name v ++ lit "' object is not iterable"))
  end.

(** [acc + v], the step of [sum]. Floats are added left to right in
    binary64, as CPython does up to 3.11. *)
Definition num_add (acc : num) (v : pyval) : outcome num :=
  match v with
  | PyInt z =>
      match acc with
      | NInt a => Return (NInt (a + z))
      | NFloat f =>
          match float_of_int z with
          | Return g => Return (NFloat (float_add f g))
          | Raise e => Raise e
          end
      end
  | PyBool b =>
      match acc with
      | NInt a => Return (NInt (a + if b then 1 else 0))
      | NFloat f => Return (NFloat (float_add f (float_of_Z (if b then 1 else 0))))
      end
  | PyFloat g => num_add_float acc g
  | _ =>
      Raise (Builtin TypeError
               (lit "unsupported operand type(s) for +: '"
                ++ match acc with NInt _ => lit "int" | NFloat _ => lit "float" end
                ++ lit "' and '" ++ type_name v ++ lit "'"))
  end.

(** [sum(u.get('value', 0) for u in items)]: the generator is consumed one
    item at a time, so the first failing item decides the exception. *)
Fixpoint sum_get_value (items : list pyval) (acc : num) : outcome num :=
  match items with
  | [] => Return acc
  | u :: rest =>
      match py_get u (lit "value") (PyInt 0) with
      | Return v =>
          match num_add acc v with
          | Return acc' => sum_get_value rest acc'
          | Raise e => Raise e
          end
      | Raise e => Raise e
      end
  end.

(** The dictionary display both references build for one parsed file:
    ['user_count'] is evaluated before ['total_value']. *)
Definition summarize (path : str) (data : pyval) : outcome FileSummary :=
  match data with
  | PyDict d =>
      match py_len (dict_get d (lit "users") (PyList [])) with
      | Raise e => Raise e
      | Return n =>
          match dict_lookup (lit "users") d with
          | None => Raise (Builtin KeyError (lit "'users'"))
          | Some users =>
              match py_iter users with
              | Raise e => Raise e
              | Return items =>
                  match sum_get_value items (NInt 0) with
                  | Raise e => Raise e
                  | Return total =>
                      Return {| file := path; user_count := n; total_value := total |}
                  end
              end
          end
      end
  | _ => Raise (attribute_error data "get")
  end.

(** [original.py]: no handler, the first failure ends the call. The paths
    are strings and the files are read through the same [fs_json]. *)
Module Original.
Section WithEnvironment.
Context {S : Type}.
Variable FS : filesystem.
Local Open Scope py_scope.

Fixpoint loop (file_paths : list str) (results : list FileSummary)
    : M S (list FileSummary) :=
  match file_paths with
  | [] => ret results
  | path :: rest =>
      data <- perform (fs_json FS path) ;;
      r <- perform (summarize path data) ;;
      loop rest (results ++ [r])
  end.

Definition process_user_files (file_paths : list str) : M S (list FileSummary) :=
  loop file_paths [].
End WithEnvironment.
End Original.

(** [human-written_refactor.py]: a failing file is logged and skipped. *)
Module HumanWritten.
Section WithEnvironment.
Context {S : Type} `{Logging S}.
Variable FS : filesystem.
Local Open Scope py_scope.

Fixpoint loop (file_paths : list str) (results : list FileSummary)
    : M S (list FileSummary) :=
  match file_paths with
  | [] => ret results
  | path :: rest =>
      results <-
        try_except
          (data <- perform (fs_json FS path) ;;
           r <- perform (summarize path data) ;;
           ret (results ++ [r]))
          (fun e =>
             if exn_is e FileNotFoundError then
               log WARNING [Txt "File not found: "; FStr path] ;; ret results
             else if exn_is e JSONDecodeError then
               log ERROR [Txt "Invalid JSON in "; FStr path; Txt ": "; FExn e] ;;
               ret results
             else
               log ERROR [Txt "Error processing "; FStr path; Txt ": "; FExn e] ;;
               ret results) ;;
      loop rest results
  end.

Definition process_user_files (file_paths : list str) : M S (list FileSummary) :=
  loop file_paths [].
End WithEnvironment.
End HumanWritten.

(** ** The properties the specification words, as definitions *)

(** [A-Za-z] *)
Definition is_alpha (c : N) : bool :=
  ((cp "a" <=? c) && (c <=? cp "z") || (cp "A" <=? c) && (c <=? cp "Z"))%N.

(** [0-9] *)
Definition is_digit (c : N) : bool := ((cp "0" <=? c) && (c <=? cp "9"))%N.

(** [A-Za-z0-9._%+-] *)
Definition local_char (c : N) : bool :=
  is_alpha c || is_digit c
  || (c =? cp ".")%N || (c =? cp "_")%N || (c =? cp "%")%N
  || (c =? cp "+")%N || (c =? cp "-")%N.

(** [A-Za-z0-9.-] *)
Definition domain_char (c : N) : bool :=
  is_alpha c || is_digit c || (c =? cp ".")%N || (c =? cp "-")%N.

(** A string of the form local@domain.tld: one or more local characters,
    [@], one or more domain characters, a dot, two or more letters, and
    nothing else. *)
Definition email_shape (s : str) : Prop :=
  exists l d t,
    s = l ++ cp "@" :: d ++ cp "." :: t
    /\ l <> [] /\ forallb local_char l = true
    /\ d <> [] /\ forallb domain_char d = true
    /\ (2 <= List.length t)%nat /\ forallb is_alpha t = true.

(** Letters, space, hyphen and apostrophe. *)
Definition plain_name_char (c : N) : bool :=
  is_alpha c || (c =? cp " ")%N || (c =? cp "-")%N || (c =? cp "'")%N.

(** Letters, any whitespace, hyphen and apostrophe. *)
Definition name_char (c : N) : bool :=
  is_alpha c || is_space c || (c =? cp "-")%N || (c =? cp "'")%N.

(** One more float on a running total. *)
Definition add_float (acc : num) (f : spec_float) : num :=
  NFloat (float_add (match acc with NInt z => float_of_Z z | NFloat g => g end) f).

(** The running total of the floats [fs], from the integer 0. *)
Definition float_sum (fs : list spec_float) : num := fold_left add_float fs (NInt 0).

(** The [value] fields of the object entries that [float] accepts, an
    absent field counting as 0. *)
Definition coercible_values (B : builtins) (users : list pyval) : list spec_float :=
  flat_map
    (fun u =>
       match u with
       | PyDict d =>
           match py_float B (dict_get d (lit "value") (PyInt 0)) with
           | Return f => [f]
           | Raise _ => []
           end
       | _ => []
       end) users.

(** No object entry holds an integer beyond the float range. *)
Definition values_in_range (B : builtins) (users : list pyval) : bool :=
  forallb
    (fun u =>
       match u with
       | PyDict d =>
           match py_float B (dict_get d (lit "value") (PyInt 0)) with
           | Raise (Builtin OverflowError _) => false
           | _ => true
           end
       | _ => true
       end) users.

(** ** Sample data *)

Definition digit_value (s : str) : Z :=
  fold_left (fun acc c => (10 * acc + (Z.of_N c - 48))%Z) s 0%Z.

(** Builtins for the samples: [float] reads unsigned digit strings only,
    [str] and [repr] render strings only. *)
Definition sample_builtins : builtins :=
  {| py_str := fun v => match v with PyStr s => s | _ => type_name v end;
     py_repr := fun v => match v with
                         | PyStr s => lit "'" ++ s ++ lit "'"
                         | _ => type_name v
                         end;
     float_of_str := fun s =>
       match s with
       | [] => None
       | _ => if forallb is_digit s then Some (float_of_Z (digit_value s)) else None
       end |}.

(** [{"users":[{"value":5},{"value":"x"},{"novalue":1}]}] *)
Definition sample_users : list pyval :=
  [ PyDict [(lit "value", PyInt 5)];
    PyDict [(lit "value", PyStr (lit "x"))];
    PyDict [(lit "novalue", PyInt 1)] ].

Definition sample_json : pyval := PyDict [(lit "users", PyList sample_users)].

(** Files: one missing, one that is not JSON, one well formed, one whose
    object has no [users] entry and one whose [users] entry is a string. *)
Definition sample_fs : filesystem :=
  {| fs_is_file := fun p => Return (negb (str_eqb p (lit "missing.json")));
     fs_json := fun p =>
       if str_eqb p (lit "good.json") then Return sample_json
       else if str_eqb p (lit "broken.json") then
         Raise (Builtin JSONDecodeError (lit "Expecting value: line 1 column 1 (char 0)"))
       else if str_eqb p (lit "nousers.json") then
         Return (PyDict [(lit "name", PyStr (lit "batch"))])
       else if str_eqb p (lit "badusers.json") then
         Return (PyDict [(lit "users", PyStr (lit "everyone"))])
       else Raise (Builtin FileNotFoundError (lit "[Errno 2] No such file or directory")) |}.

Definition sample_paths : list str :=
  [lit "missing.json"; lit "broken.json"; lit "good.json"].

Definition empty_state : Refactor.state :=
  {| Refactor.logged := []; Refactor.results := []; Refactor.errors := [] |}.

(** The binary64 value 5.0 *)
Definition five : spec_float := S754_finite false 5629499534213120 (-50).

(** ** Vocabulary for the statements about the aggregator *)

(** A state grown by log records, summaries and error records. *)
Definition extend (l : list log_record) (rs : list FileSummary)
    (es : list ProcessingError) (s : Refactor.state) : Refactor.state :=
  {| Refactor.logged := Refactor.logged s ++ l;
     Refactor.results := Refactor.results s ++ rs;
     Refactor.errors := Refactor.errors s ++ es |}.

(** [m] ends with outcome [o] and only appends [l], [rs] and [es],
    whatever the state it starts in. *)
Definition effect {A} (m : M Refactor.state A) (o : outcome A)
    (l : list log_record) (rs : list FileSummary) (es : list ProcessingError) : Prop :=
  forall s, m s = (o, extend l rs es s).

(** What one path leaves in each collection when it is processed on its own. *)
Definition summaries_of (B : builtins) (FS : filesystem) (path : pyval)
    : list FileSummary :=
  Refactor.results (snd (Refactor.process_path B FS path empty_state)).

Definition failures_of (B : builtins) (FS : filesystem) (path : pyval)
    : list ProcessingError :=
  Refactor.errors (snd (Refactor.process_path B FS path empty_state)).

(** The reasons the load step gives. *)
Definition load_reason (m : str) : Prop :=
  m = lit "File not found"
  \/ (exists t, m = lit "Invalid JSON format: " ++ t)
  \/ m = lit "Permission denied"
  \/ m = lit "File encoding error"
  \/ (exists t, m = lit "Unexpected error: " ++ t).

(** The reasons the extraction step gives. *)
Definition extract_reason (m : str) : Prop :=
  m = lit "'users' field must be a list"
  \/ (exists t, m = lit "Data extraction error: " ++ t).

(** Every reason an error record can carry. *)
Definition known_reason (m : str) : Prop :=
  m = lit "Invalid path type"
  \/ m = lit "File does not exist or is not accessible"
  \/ load_reason m
  \/ extract_reason m.

(** What [load_json_file] can end with for the path [p]. *)
Definition load_spec (FS : filesystem) (p : str) (o : outcome (option dict)) : Prop :=
  match o with
  | Return (Some d) => fs_json FS p = Return (PyDict d)
  | Return None => False
  | Raise (FileProcessingError fp m _) =>
      fp = p /\ load_reason m /\ forall d, fs_json FS p <> Return (PyDict d)
  | Raise (Builtin _ _) => False
  end.

(** What the loop of [extract_user_data] can end with. *)
Definition sum_spec (B : builtins) (users : list pyval) (total : num)
    (o : outcome num) : Prop :=
  match o with
  | Return t => t = fold_left add_float (coercible_values B users) total
  | Raise (Builtin OverflowError _) => True
  | Raise _ => False
  end.

(** What [extract_user_data] can end with for the object [d] of the file [p]. *)
Definition extract_spec (B : builtins) (d : dict) (p : str)
    (o : outcome FileSummary) : Prop :=
  match o with
  | Return r =>
      file r = p
      /\ exists users,
           dict_get d (lit "users") (PyList []) = PyList users
           /\ user_count r = List.length users
           /\ total_value r = float_sum (coercible_values B users)
  | Raise (FileProcessingError fp m _) => fp = p /\ extract_reason m
  | Raise (Builtin _ _) => False
  end.

(** Whether a path, processed on its own, yields a summary. *)
Definition succeeds (B : builtins) (FS : filesystem) (path : pyval) : bool :=
  match summaries_of B FS path with
  | [] => false
  | _ => true
  end.

(** The reason of the branch guarded by [data is None]. *)
Definition failed_to_load : str := lit "Failed to load file".

(** The accumulator can take a float: an integer total is in range. *)
Definition total_ok (total : num) : Prop :=
  match total with
  | NInt z => float_of_int z = Return (float_of_Z z)
  | NFloat _ => True
  end.

(** ** Vocabulary for the further properties *)

(** [A-Z] *)
Definition is_upper (c : N) : bool := ((cp "A" <=? c) && (c <=? cp "Z"))%N.

(** The values [+] accepts next to a number. *)
Definition numeric (v : pyval) : bool :=
  match v with
  | PyInt _ | PyBool _ | PyFloat _ => true
  | _ => false
  end.

(** An entry both references can add up: an object whose [value] is numeric. *)
Definition summable (u : pyval) : Prop :=
  exists d, u = PyDict d /\ numeric (dict_get d (lit "value") (PyInt 0)) = true.

(** An object whose [value], 0 when absent, is the integer [z]. *)
Definition int_entry (u : pyval) (z : Z) : Prop :=
  exists d, u = PyDict d /\ dict_get d (lit "value") (PyInt 0) = PyInt z.

(** What reading and summarising one file gives the references. *)
Definition ref_outcome (FS : filesystem) (path : str) : outcome FileSummary :=
  match fs_json FS path with
  | Return data => summarize path data
  | Raise e => Raise e
  end.

Definition ref_summaries (FS : filesystem) (path : str) : list FileSummary :=
  match ref_outcome FS path with
  | Return r => [r]
  | Raise _ => []
  end.

(** The first exception among the outcomes of the paths, if any. *)
Fixpoint first_failure (FS : filesystem) (paths : list str) : option exn :=
  match paths with
  | [] => None
  | path :: rest =>
      match ref_outcome FS path with
      | Return _ => first_failure FS rest
      | Raise e => Some e
      end
  end.

(** The body sent with status 201 for a normalised e-mail and name. *)
Definition created_body (email name : str) : dict :=
  [(lit "id", PyInt 1); (lit "email", PyStr email); (lit "name", PyStr name);
   (lit "created_at", PyStr (lit "2025-01-04T00:00:00Z"))].

(** The body sent with status 400. *)
Definition bad_request_body (error message : str) : dict :=
  [(lit "error", PyStr error); (lit "message", PyStr message)].

(** The request body is an object whose [email] and [name] are strings that
    pass [validate_email] and [validate_name]. *)
Definition valid_user (data : pyval) (e n : str) : Prop :=
  exists d,
    data = PyDict d
    /\ dict_lookup (lit "email") d = Some (PyStr e)
    /\ dict_lookup (lit "name") d = Some (PyStr n)
    /\ Api.validate_email (PyStr e) = true
    /\ Api.validate_name (PyStr n) = (true, []).

(** The two records that close the log of a run over a non-empty list. *)
Definition closing_log (rs : list FileSummary) (es : list ProcessingError)
    : list log_record :=
  (INFO, [Txt "Processing complete: "; FLen (List.length rs);
          Txt " succeeded, "; FLen (List.length es); Txt " failed"])
  :: match es with
     | [] => []
     | _ => [(WARNING, [Txt "Errors encountered: "; FVal (PyList (map pe_val es))])]
     end.

(** A state with a given error collection, for the samples. *)
Definition sample_big : Z := 2 ^ 1024.

(** An object whose one entry holds an integer beyond the float range. *)
Definition sample_overflowing : dict :=
  [(lit "users", PyList [PyDict [(lit "value", PyInt sample_big)]])].

(** * Proofs *)

(** ** The effect calculus of the aggregator's monad *)

Section Effects.
Import Refactor.
Local Open Scope py_scope.

Lemma extend_nil s : extend [] [] [] s = s.
Proof. destruct s; unfold extend; simpl; now rewrite !app_nil_r. Qed.

Lemma extend_extend l1 r1 e1 l2 r2 e2 s :
  extend l2 r2 e2 (extend l1 r1 e1 s) = extend (l1 ++ l2) (r1 ++ r2) (e1 ++ e2) s.
Proof. unfold extend; simpl; now rewrite !app_assoc. Qed.

Lemma effect_ret A (a : A) : effect (ret a) (Return a) [] [] [].
Proof. intros s; unfold ret; now rewrite extend_nil. Qed.

Lemma effect_raise A e : effect (@raise _ A e) (Raise e) [] [] [].
Proof. intros s; unfold raise; now rewrite extend_nil. Qed.

Lemma effect_perform A (o : outcome A) : effect (perform o) o [] [] [].
Proof. intros s; unfold perform; now rewrite extend_nil. Qed.

Lemma effect_log lv msg : effect (log lv msg) (Return tt) [(lv, msg)] [] [].
Proof.
  intros s; unfold log, modify, write_log, Logging_state, extend; simpl.
  now rewrite !app_nil_r.
Qed.

Lemma effect_results_append r : effect (results_append r) (Return tt) [] [r] [].
Proof.
  intros s; unfold results_append, modify, set_results, extend; simpl.
  now rewrite !app_nil_r.
Qed.

Lemma effect_errors_append e : effect (errors_append e) (Return tt) [] [] [e].
Proof.
  intros s; unfold errors_append, modify, set_errors, extend; simpl.
  now rewrite !app_nil_r.
Qed.

Lemma effect_bind A C (m : M state A) (k : A -> M state C) a o l1 r1 e1 l2 r2 e2 :
  effect m (Return a) l1 r1 e1 ->
  effect (k a) o l2 r2 e2 ->
  effect (bind m k) o (l1 ++ l2) (r1 ++ r2) (e1 ++ e2).
Proof.
  intros Hm Hk s; unfold bind; rewrite Hm, Hk; now rewrite extend_extend.
Qed.

Lemma effect_bind_raise A C (m : M state A) (k : A -> M state C) e l r es :
  effect m (Raise e) l r es ->
  effect (bind m k) (Raise e) l r es.
Proof. intros Hm s; unfold bind; now rewrite Hm. Qed.

Lemma effect_try_return A (m : M state A) h a l r es :
  effect m (Return a) l r es ->
  effect (try_except m h) (Return a) l r es.
Proof. intros Hm s; unfold try_except; now rewrite Hm. Qed.

Lemma effect_try_raise A (m : M state A) h e o l1 r1 e1 l2 r2 e2 :
  effect m (Raise e) l1 r1 e1 ->
  effect (h e) o l2 r2 e2 ->
  effect (try_except m h) o (l1 ++ l2) (r1 ++ r2) (e1 ++ e2).
Proof.
  intros Hm Hh s; unfold try_except; rewrite Hm, Hh; now rewrite extend_extend.
Qed.

(** An effect determines the outcome and the appended records. *)
Lemma effect_run A (m : M state A) o l rs es :
  effect m o l rs es ->
  forall s, fst (m s) = o
            /\ results (snd (m s)) = results s ++ rs
            /\ errors (snd (m s)) = errors s ++ es
            /\ logged (snd (m s)) = logged s ++ l.
Proof. intros Hm s; rewrite Hm; simpl; auto. Qed.

End Effects.

Create HintDb effects.
#[export] Hint Resolve effect_ret effect_raise effect_perform effect_log
  effect_results_append effect_errors_append : effects.

Section LogsOnly.
Import Refactor.

Lemma logs_bind A C (m : M state A) (k : A -> M state C) a o l1 l2 :
  effect m (Return a) l1 [] [] ->
  effect (k a) o l2 [] [] ->
  effect (bind m k) o (l1 ++ l2) [] [].
Proof. intros Hm Hk; exact (effect_bind k Hm Hk). Qed.

Lemma logs_try_raise A (m : M state A) h e o l1 l2 :
  effect m (Raise e) l1 [] [] ->
  effect (h e) o l2 [] [] ->
  effect (try_except m h) o (l1 ++ l2) [] [].
Proof. intros Hm Hh; exact (effect_try_raise h Hm Hh). Qed.

Lemma logs_then_try_raise A (m : M state A) h e o l1 l2 rs es :
  effect m (Raise e) l1 [] [] ->
  effect (h e) o l2 rs es ->
  effect (try_except m h) o (l1 ++ l2) rs es.
Proof. intros Hm Hh; exact (effect_try_raise h Hm Hh). Qed.

End LogsOnly.

(** Composes the effect of a computation that touches the log only; the
    values it branches on must have been destructed. *)
Ltac logs :=
  cbv beta iota;
  first
    [ solve [ eauto with effects ]
    | eapply logs_bind; [ logs | logs ]
    | eapply effect_bind_raise; logs
    | eapply effect_try_return; logs
    | eapply logs_try_raise; [ logs | logs ] ].

(** ** The steps of the aggregator *)

Section Steps.
Import Refactor.
Variable B : builtins.
Variable FS : filesystem.
Local Open Scope py_scope.

Lemma validate_file_path_effect p :
  exists b l,
    effect (validate_file_path FS p) (Return b) l [] []
    /\ (b = true <-> fs_is_file FS p = Return true).
Proof.
  unfold validate_file_path.
  destruct (fs_is_file FS p) as [b | e].
  - exists b; eexists; split; [ logs | ].
    split; [ now intros -> | now intros [= ->] ].
  - exists false; eexists; split; [ logs | ].
    split; discriminate.
Qed.

Lemma load_json_file_effect p :
  exists o l, effect (load_json_file FS p) o l [] [] /\ load_spec FS p o.
Proof.
  unfold load_json_file, load_spec, load_reason.
  destruct (fs_json FS p) as [v | e] eqn:E.
  - destruct v;
      try (eexists; eexists; split; [ logs | ]; cbn;
           (repeat split; eauto 10; discriminate)).
  - destruct (exn_is e FileNotFoundError) eqn:E1;
      [ | destruct (exn_is e JSONDecodeError) eqn:E2;
          [ | destruct (exn_is e PermissionError) eqn:E3;
              [ | destruct (exn_is e UnicodeDecodeError) eqn:E4 ] ] ];
      (eexists; eexists; split;
       [ eapply logs_try_raise; [ logs | cbv beta; rewrite ?E1, ?E2, ?E3, ?E4; logs ]
       | cbn; repeat split; eauto 10; discriminate ]).
Qed.

Lemma py_float_raises v e :
  py_float B v = Raise e ->
  e = overflow_error
  \/ (exists t, e = Builtin ValueError t)
  \/ (exists t, e = Builtin TypeError t).
Proof.
  unfold py_float, float_of_int.
  destruct v as [ | b | z | f | s | l | d ]; intros H;
    try (injection H as <-; eauto).
  - destruct (float_of_Z (if b then 1 else 0)); try discriminate.
    injection H as <-; auto.
  - destruct (float_of_Z z); try discriminate.
    injection H as <-; auto.
  - discriminate.
  - destruct (float_of_str B s); try discriminate.
    injection H as <-; eauto.
Qed.

Lemma num_add_float_cases total f :
  num_add_float total f = Return (add_float total f)
  \/ num_add_float total f = Raise overflow_error.
Proof.
  unfold num_add_float, add_float, float_of_int.
  destruct total as [z | g]; auto.
  destruct (float_of_Z z); auto.
Qed.

Lemma sum_values_effect p users :
  forall idx total,
  exists o l,
    effect (sum_values B p users idx total) o l [] [] /\ sum_spec B users total o.
Proof.
  induction users as [ | user rest IH ]; intros idx total.
  - eexists; eexists; split; [ simpl; logs | reflexivity ].
  - assert (Skip : forall t, coercible_values B (user :: rest) = coercible_values B rest ->
              exists o l,
                effect (log WARNING t ;; sum_values B p rest (S idx) total) o l [] []
                /\ sum_spec B (user :: rest) total o).
    { intros t Hc. destruct (IH (S idx) total) as (o & l & He & Hs).
      exists o; eexists; split; [ logs | ].
      unfold sum_spec in *; now rewrite Hc. }
    destruct user as [ | b | z | f | s | us | d ]; try (apply Skip; reflexivity).
    cbn [sum_values].
    set (value := dict_get d (lit "value") (PyInt 0)).
    assert (Hc : coercible_values B (PyDict d :: rest)
                 = match py_float B value with Return f => [f] | Raise _ => [] end
                   ++ coercible_values B rest) by reflexivity.
    destruct (py_float B value) as [f | e] eqn:Ef.
    + destruct (num_add_float_cases total f) as [Ha | Ha].
      * destruct (IH (S idx) (add_float total f)) as (o & l & He & Hs).
        exists o; eexists; split.
        -- eapply logs_bind; [ | exact He ].
           eapply effect_try_return. rewrite <- Ha. logs.
        -- unfold sum_spec in *; now rewrite Hc.
      * eexists; eexists; split.
        -- eapply effect_bind_raise. eapply logs_try_raise.
           ++ rewrite <- Ha. logs.
           ++ cbn. logs.
        -- reflexivity.
    + destruct (py_float_raises _ Ef) as [-> | [[t ->] | [t ->]]].
      * eexists; eexists; split.
        -- eapply effect_bind_raise. eapply logs_try_raise; [ logs | cbn; logs ].
        -- reflexivity.
      * destruct (IH (S idx) total) as (o & l & He & Hs).
        exists o; eexists; split.
        -- eapply logs_bind; [ | exact He ].
           eapply logs_try_raise; [ logs | cbn; logs ].
        -- unfold sum_spec in *; now rewrite Hc.
      * destruct (IH (S idx) total) as (o & l & He & Hs).
        exists o; eexists; split.
        -- eapply logs_bind; [ | exact He ].
           eapply logs_try_raise; [ logs | cbn; logs ].
        -- unfold sum_spec in *; now rewrite Hc.
Qed.

Lemma extract_user_data_effect d p :
  exists o l, effect (extract_user_data B d p) o l [] [] /\ extract_spec B d p o.
Proof.
  unfold extract_user_data, extract_spec, extract_reason, dict_get.
  destruct (dict_lookup (lit "users") d) as [v | ] eqn:E.
  - destruct v as [ | b | z | f | s | users | d' ];
      try (eexists; eexists; split;
           [ eapply logs_try_raise; [ logs | cbn; logs ] | cbn; auto ]).
    destruct (sum_values_effect p users 0 (NInt 0)) as (o & l & He & Hs).
    destruct o as [t | e].
    + eexists; eexists; split; [ logs | ].
      cbn; split; [ reflexivity | ].
      exists users; repeat split. exact Hs.
    + destruct e as [ fp m oe | c t ]; [ destruct Hs | ].
      eexists; eexists; split; [ eapply logs_try_raise; [ logs | cbn; logs ] | ].
      cbn; eauto.
  - destruct (sum_values_effect p [] 0 (NInt 0)) as (o & l & He & Hs).
    cbn in He.
    eexists; eexists; split; [ logs | ].
    cbn; split; [ reflexivity | ].
    exists []; repeat split.
Qed.

(** One iteration appends exactly one record, to exactly one collection,
    and never raises. *)
Lemma process_path_effect path :
  exists l,
    (exists r,
        effect (process_path B FS path) (Return tt) l [r] []
        /\ path = PyStr (file r)
        /\ fs_is_file FS (file r) = Return true
        /\ exists d, fs_json FS (file r) = Return (PyDict d)
                     /\ extract_spec B d (file r) (Return r))
    \/ (exists e,
           effect (process_path B FS path) (Return tt) l [] [e]
           /\ known_reason (pe_error e)).
Proof.
  unfold process_path, known_reason.
  destruct path as [ | b | z | f | p | ps | d ];
    try (eexists; right; eexists; split;
         [ eapply effect_try_return;
           eapply (effect_bind _ (effect_log _ _) (effect_errors_append _))
         | cbn; auto ]).
  destruct (validate_file_path_effect p) as (ok & lv & Hv & Hok).
  destruct ok.
  - destruct (load_json_file_effect p) as (o & ll & Hl & Hls).
    destruct o as [ [d | ] | e ]; [ | destruct Hls | ].
    + destruct (extract_user_data_effect d p) as (o & le & He & Hes).
      destruct o as [r | e].
      * eexists; left; exists r; split.
        -- eapply effect_try_return.
           eapply (effect_bind _ Hv); cbn.
           eapply (effect_bind _ Hl); cbn.
           eapply (effect_bind _ He).
           eapply (effect_bind _ (effect_results_append _) (effect_log _ _)).
        -- pose proof Hes as Hes'. destruct Hes as [Hf _]. rewrite Hf.
           split; [ reflexivity | split; [ now apply Hok | ] ].
           exists d; split; [ exact Hls | exact Hes' ].
      * destruct e as [ fp m oe | c t ]; [ | destruct Hes ].
        eexists; right; eexists; split.
        -- eapply logs_then_try_raise.
           ++ eapply (effect_bind _ Hv); cbn.
              eapply (effect_bind _ Hl); cbn.
              eapply effect_bind_raise. exact He.
           ++ cbn. apply effect_errors_append.
        -- destruct Hes as [_ Hm]; cbn; auto.
    + destruct e as [ fp m oe | c t ]; [ | destruct Hls ].
      eexists; right; eexists; split.
      * eapply logs_then_try_raise.
        -- eapply (effect_bind _ Hv); cbn.
           eapply effect_bind_raise. exact Hl.
        -- cbn. apply effect_errors_append.
      * destruct Hls as (_ & Hm & _); cbn; auto.
  - eexists; right; eexists; split.
    + eapply effect_try_return.
      eapply (effect_bind _ Hv); cbn.
      eapply (effect_bind _ (effect_log _ _) (effect_errors_append _)).
    + cbn; auto.
Qed.
End Steps.

(** ** The loop and the whole run *)

Section Runs.
Import Refactor.
Variable B : builtins.
Variable FS : filesystem.
Local Open Scope py_scope.

(** Processed on its own, a path leaves one summary and no error record,
    or one error record and no summary. *)
Lemma one_record path :
  (exists r, summaries_of B FS path = [r] /\ failures_of B FS path = []
             /\ path = PyStr (file r))
  \/ (exists e, summaries_of B FS path = [] /\ failures_of B FS path = [e]
                /\ known_reason (pe_error e)).
Proof.
  unfold summaries_of, failures_of.
  destruct (process_path_effect B FS path)
    as (l & [ (r & He & Hp & _) | (e & He & Hk) ]);
    destruct (effect_run He empty_state) as (_ & Hr & Her & _);
    rewrite Hr, Her; [ left; exists r | right; exists e ]; auto.
Qed.

(** In any state, the iteration appends what the path leaves on its own. *)
Lemma process_path_run path :
  exists l,
    effect (process_path B FS path) (Return tt) l
      (summaries_of B FS path) (failures_of B FS path).
Proof.
  unfold summaries_of, failures_of.
  destruct (process_path_effect B FS path)
    as (l & [ (r & He & _) | (e & He & _) ]);
    destruct (effect_run He empty_state) as (_ & Hr & Her & _);
    rewrite Hr, Her; exists l; exact He.
Qed.

Lemma for_each_effect paths :
  exists l,
    effect (for_each paths (process_path B FS)) (Return tt) l
      (flat_map (summaries_of B FS) paths) (flat_map (failures_of B FS) paths).
Proof.
  induction paths as [ | path rest (l' & IH) ].
  - exists []; apply effect_ret.
  - destruct (process_path_run path) as (l & He).
    exists (l ++ l'); exact (effect_bind _ He IH).
Qed.

Lemma process_user_files_empty s :
  process_user_files B FS (PyList []) s
  = (Return [], extend [(WARNING, [Txt "Empty file_paths list provided"])] [] [] s).
Proof.
  unfold process_user_files.
  exact (effect_bind (fun _ => ret []) (effect_log _ _) (effect_ret _) s).
Qed.

Lemma process_user_files_run paths s :
  paths <> [] ->
  exists l,
    process_user_files B FS (PyList paths) s
    = (Return (flat_map (summaries_of B FS) paths),
       {| logged := logged s ++ l;
          results := flat_map (summaries_of B FS) paths;
          errors := flat_map (failures_of B FS) paths |}).
Proof.
  intros Hne.
  destruct (for_each_effect paths) as (l & He).
  unfold process_user_files.
  destruct paths as [ | path rest ]; [ congruence | ].
  cbv iota.
  remember (path :: rest) as paths eqn:Ep.
  unfold bind at 1 2 3 4; unfold modify at 1 2; unfold log at 1, modify at 1.
  rewrite He.
  unfold bind, gets, ret, log, modify, extend, write_log, Logging_state,
    set_errors, set_results; cbn.
  destruct (flat_map (failures_of B FS) paths) eqn:E; cbn;
    eexists; rewrite <- ?app_assoc; reflexivity.
Qed.

Lemma process_user_files_returns paths s :
  fst (process_user_files B FS (PyList paths) s)
  = Return (flat_map (summaries_of B FS) paths).
Proof.
  destruct paths as [ | path rest ].
  - now rewrite process_user_files_empty.
  - destruct (@process_user_files_run (path :: rest) s) as (l & ->);
      [ discriminate | reflexivity ].
Qed.

Lemma flat_map_lengths paths :
  List.length (flat_map (summaries_of B FS) paths)
  + List.length (flat_map (failures_of B FS) paths)
  = List.length paths.
Proof.
  induction paths as [ | path rest IH ]; [ reflexivity | ].
  cbn [flat_map]; rewrite !length_app; cbn [List.length].
  destruct (one_record path) as [ (r & -> & -> & _) | (e & -> & -> & _) ];
    cbn; lia.
Qed.
End Runs.

(** ** Single paths, case by case *)

Section Paths.
Import Refactor.
Variable B : builtins.
Variable FS : filesystem.
Local Open Scope py_scope.

Lemma known_reason_not_failed_to_load m :
  known_reason m -> m <> failed_to_load.
Proof.
  unfold known_reason, load_reason, extract_reason, failed_to_load.
  intros H E; subst m.
  repeat match goal with
         | H : _ \/ _ |- _ => destruct H
         | H : exists _, _ |- _ => destruct H
         end;
    cbn in *; discriminate.
Qed.

Lemma extract_absent d p :
  dict_lookup (lit "users") d = None ->
  effect (extract_user_data B d p)
    (Return {| file := p; user_count := 0; total_value := NInt 0 |})
    [(WARNING, [Txt "No 'users' key in "; FStr p; Txt ", using empty list"])] [] [].
Proof.
  intros H. unfold extract_user_data. rewrite H.
  eapply effect_try_return.
  eapply (logs_bind _ (l1 := [_]) (l2 := [])).
  - eapply (logs_bind _ (l1 := [_]) (l2 := [])); [ apply effect_log | apply effect_ret ].
  - cbn. eapply (logs_bind _ (l1 := []) (l2 := [])); [ apply effect_ret | apply effect_ret ].
Qed.

Lemma extract_not_list d p v :
  dict_lookup (lit "users") d = Some v ->
  is_list v = false ->
  effect (extract_user_data B d p)
    (Raise (FileProcessingError p (lit "'users' field must be a list") None)) [] [] [].
Proof.
  intros H Hv. unfold extract_user_data. rewrite H.
  destruct v; try discriminate Hv;
    (eapply (logs_try_raise _ (l1 := []) (l2 := []));
     [ eapply (logs_bind _ (l1 := []) (l2 := [])); [ apply effect_ret | apply effect_raise ]
     | apply effect_raise ]).
Qed.

Lemma sum_values_returns p users :
  forall idx total,
    total_ok total ->
    values_in_range B users = true ->
    exists t l, effect (sum_values B p users idx total) (Return t) l [] [].
Proof.
  induction users as [ | user rest IH ]; intros idx total Hok Hr.
  - eexists; eexists; simpl; logs.
  - cbn [values_in_range forallb] in Hr. apply andb_prop in Hr as [Hu Hr].
    assert (Skip : forall t,
               exists t' l,
                 effect (log WARNING t ;; sum_values B p rest (S idx) total)
                   (Return t') l [] []).
    { intros t. destruct (IH (S idx) total Hok Hr) as (t' & l & He).
      exists t'; eexists; logs. }
    destruct user as [ | b | z | f | s | us | d ]; try apply Skip.
    cbn [sum_values].
    set (value := dict_get d (lit "value") (PyInt 0)) in *.
    destruct (py_float B value) as [f | e] eqn:Ef.
    + assert (Ha : num_add_float total f = Return (add_float total f)).
      { unfold num_add_float, add_float. destruct total as [z | g]; [ | reflexivity ].
        cbn in Hok. now rewrite Hok. }
      destruct (IH (S idx) (add_float total f) I Hr) as (t' & l & He).
      exists t'; eexists.
      eapply logs_bind; [ | exact He ].
      eapply effect_try_return. rewrite <- Ha. logs.
    + destruct (py_float_raises _ _ Ef) as [-> | [[t ->] | [t ->]]];
        [ discriminate Hu | | ];
        destruct (IH (S idx) total Hok Hr) as (t' & l & He);
        exists t'; eexists;
        (eapply logs_bind; [ | exact He ]);
        (eapply logs_try_raise; [ logs | cbn; logs ]).
Qed.

Lemma extract_list d p users :
  dict_lookup (lit "users") d = Some (PyList users) ->
  values_in_range B users = true ->
  exists t l,
    effect (extract_user_data B d p)
      (Return {| file := p; user_count := List.length users; total_value := t |})
      l [] [].
Proof.
  intros H Hr. unfold extract_user_data. rewrite H.
  destruct (sum_values_returns p users 0 (NInt 0) eq_refl Hr) as (t & l & He).
  exists t; eexists. logs.
Qed.

Lemma effect_unique A (m : M state A) o l rs es o' l' rs' es' :
  effect m o l rs es -> effect m o' l' rs' es' ->
  o = o' /\ rs = rs' /\ es = es'.
Proof.
  intros H H'. pose proof (H empty_state) as E. rewrite (H' empty_state) in E.
  unfold extend in E; cbn in E. now injection E as -> _ -> ->.
Qed.

(** A readable regular file holding an object goes through to the
    extraction step, whose outcome decides the record. *)
Lemma process_path_extracted p d o le :
  fs_is_file FS p = Return true ->
  fs_json FS p = Return (PyDict d) ->
  effect (extract_user_data B d p) o le [] [] ->
  match o with
  | Return r =>
      summaries_of B FS (PyStr p) = [r] /\ failures_of B FS (PyStr p) = []
  | Raise (FileProcessingError fp m _) =>
      summaries_of B FS (PyStr p) = []
      /\ failures_of B FS (PyStr p) = [{| pe_file := PyStr fp; pe_error := m |}]
  | Raise (Builtin _ _) => True
  end.
Proof.
  intros Hf Hj He.
  destruct (validate_file_path_effect FS p) as (ok & lv & Hv & Hok).
  assert (ok = true) by now apply Hok. subst ok.
  destruct (load_json_file_effect FS p) as (ol & ll & Hl & Hls).
  assert (ol = Return (Some d)).
  { unfold load_spec in Hls. destruct ol as [ [d' | ] | [ fp m oe | c t ] ];
      try contradiction.
    - rewrite Hj in Hls. now injection Hls as ->.
    - destruct Hls as (_ & _ & Hn). now destruct (Hn d). }
  subst ol.
  unfold summaries_of, failures_of.
  destruct o as [ r | [ fp m oe | c t ] ]; [ | | exact I ].
  - assert (Hp : exists l, effect (process_path B FS (PyStr p)) (Return tt) l [r] []).
    { eexists. unfold process_path. eapply effect_try_return.
      eapply (effect_bind _ Hv); cbn.
      eapply (effect_bind _ Hl); cbn.
      eapply (effect_bind _ He).
      eapply (effect_bind _ (effect_results_append _) (effect_log _ _)). }
    destruct Hp as (l & Hp).
    destruct (effect_run Hp empty_state) as (_ & -> & -> & _); auto.
  - assert (Hp : exists l, effect (process_path B FS (PyStr p)) (Return tt) l
                               [] [{| pe_file := PyStr fp; pe_error := m |}]).
    { eexists. unfold process_path. eapply logs_then_try_raise.
      - eapply (effect_bind _ Hv); cbn.
        eapply (effect_bind _ Hl); cbn.
        eapply effect_bind_raise. exact He.
      - cbn. apply effect_errors_append. }
    destruct Hp as (l & Hp).
    destruct (effect_run Hp empty_state) as (_ & -> & -> & _); auto.
Qed.

(** What a summary tells about the file it comes from. *)
Lemma summaries_of_spec path r :
  summaries_of B FS path = [r] ->
  path = PyStr (file r)
  /\ fs_is_file FS (file r) = Return true
  /\ exists d, fs_json FS (file r) = Return (PyDict d)
               /\ extract_spec B d (file r) (Return r).
Proof.
  intros H. unfold summaries_of in H.
  destruct (process_path_effect B FS path)
    as (l & [ (r' & He & Hrest) | (e & He & _) ]);
    destruct (effect_run He empty_state) as (_ & Hr & _);
    rewrite Hr in H; cbn in H; [ | discriminate ].
  injection H as ->. exact Hrest.
Qed.

End Paths.

(** ** Stripping *)

Section Strip.

Lemma lstrip_incl s c : In c (lstrip s) -> In c s.
Proof.
  induction s as [ | x s IH ]; cbn; [ tauto | ].
  destruct (is_space x); cbn; auto.
Qed.

Lemma lstrip_keeps s c : In c s -> is_space c = false -> In c (lstrip s).
Proof.
  induction s as [ | x s IH ]; cbn; [ tauto | ].
  intros [-> | Hin] Hc.
  - rewrite Hc. now left.
  - destruct (is_space x); [ auto | now right ].
Qed.

Lemma lstrip_length s : (List.length (lstrip s) <= List.length s)%nat.
Proof.
  induction s as [ | x s IH ]; cbn; [ lia | ].
  destruct (is_space x); cbn; lia.
Qed.

Lemma strip_incl s c : In c (strip s) -> In c s.
Proof.
  unfold strip, rstrip. intros H.
  apply lstrip_incl. apply in_rev. apply lstrip_incl. now apply in_rev in H.
Qed.

Lemma strip_keeps s c : In c s -> is_space c = false -> In c (strip s).
Proof.
  unfold strip, rstrip. intros H Hc.
  apply in_rev. rewrite rev_involutive.
  apply lstrip_keeps; [ | exact Hc ].
  apply in_rev. rewrite rev_involutive. now apply lstrip_keeps.
Qed.

Lemma strip_length s : (List.length (strip s) <= List.length s)%nat.
Proof.
  unfold strip, rstrip. rewrite length_rev.
  etransitivity; [ apply lstrip_length | ].
  rewrite length_rev. apply lstrip_length.
Qed.

End Strip.

(** ** The matcher against the languages of the two patterns *)

Section Matcher.
Import Re.

Lemma match_rep_nil cs min p b :
  match_here (Rep cs min :: p) b [] = Nat.eqb min 0 && match_here p b [].
Proof. reflexivity. Qed.

Lemma match_rep_cons cs min p b x s :
  match_here (Rep cs min :: p) b (x :: s)
  = in_set cs x && match_here (Rep cs (pred min) :: p) false s
    || Nat.eqb min 0 && match_here p b (x :: s).
Proof. reflexivity. Qed.

(** A repetition matches a run [u] of at least [min] members of the set,
    and the rest of the pattern matches what follows. *)
Lemma match_rep_spec cs p s :
  forall min b,
    match_here (Rep cs min :: p) b s = true
    <-> exists u v,
          s = u ++ v
          /\ forallb (in_set cs) u = true
          /\ (min <= List.length u)%nat
          /\ match_here p (match u with [] => b | _ => false end) v = true.
Proof.
  induction s as [ | x s IH ]; intros min b.
  - rewrite match_rep_nil, andb_true_iff, Nat.eqb_eq. split.
    + intros [-> H]. exists [], []. cbn; auto.
    + intros (u & v & E & _ & Hm & H).
      symmetry in E. apply app_eq_nil in E as [-> ->].
      cbn in Hm. split; [ lia | exact H ].
  - rewrite match_rep_cons, orb_true_iff, !andb_true_iff, Nat.eqb_eq, IH. split.
    + intros [ [Hx (u & v & -> & Hu & Hm & H)] | [-> H] ].
      * exists (x :: u), v. cbn. rewrite Hx, Hu.
        split; [ reflexivity | split; [ reflexivity | split; [ lia | ] ] ].
        now destruct u.
      * exists [], (x :: s). cbn; auto.
    + intros (u & v & E & Hu & Hm & H). destruct u as [ | y u ].
      * right. cbn in E, Hm. subst v. split; [ lia | exact H ].
      * left. cbn in E, Hu, Hm. injection E as <- ->.
        apply andb_true_iff in Hu as [Hy Hu]. split; [ exact Hy | ].
        exists u, v.
        split; [ reflexivity | split; [ exact Hu | split; [ lia | now destruct u ] ] ].
Qed.

Lemma match_lit_spec c p b s :
  match_here (Lit c :: p) b s = true
  <-> exists s', s = cp c :: s' /\ match_here p false s' = true.
Proof.
  cbn. destruct s as [ | x s ].
  - split; [ discriminate | intros (s' & E & _); discriminate ].
  - rewrite andb_true_iff, N.eqb_eq. split.
    + intros [-> H]. now exists s.
    + intros (s' & E & H). injection E as -> ->. auto.
Qed.

Lemma match_eol_spec b s :
  match_here [Eol] b s = true <-> s = [] \/ s = [10%N].
Proof.
  cbn. rewrite andb_true_r. destruct s as [ | x [ | y s ] ]; cbn.
  - intuition.
  - rewrite N.eqb_eq. split.
    + intros ->; auto.
    + intros [E | E]; [ discriminate | now injection E ].
  - split; [ discriminate | intros [E | E]; discriminate ].
Qed.

(** Decides a Boolean identity over the comparisons of one code point. *)
Ltac char_cases :=
  repeat match goal with
         | |- context [ (?a <=? ?b)%N ] => destruct (a <=? b)%N
         | |- context [ (?a =? ?b)%N ] => destruct (a =? b)%N
         | |- context [ is_space ?c ] => destruct (is_space c)
         end;
  reflexivity.

Lemma in_local_set c :
  in_set [CRange "a" "z"; CRange "A" "Z"; CRange "0" "9";
          COne "."; COne "_"; COne "%"; COne "+"; COne "-"] c
  = local_char c.
Proof.
  unfold in_set, local_char, is_alpha, is_digit; cbn [existsb citem_mem].
  char_cases.
Qed.

Lemma in_domain_set c :
  in_set [CRange "a" "z"; CRange "A" "Z"; CRange "0" "9"; COne "."; COne "-"] c
  = domain_char c.
Proof.
  unfold in_set, domain_char, is_alpha, is_digit; cbn [existsb citem_mem].
  char_cases.
Qed.

Lemma in_alpha_set c :
  in_set [CRange "a" "z"; CRange "A" "Z"] c = is_alpha c.
Proof.
  unfold in_set, is_alpha; cbn [existsb citem_mem].
  char_cases.
Qed.

Lemma in_name_set c :
  in_set [CRange "a" "z"; CRange "A" "Z"; CSpace; COne "'"; COne "-"] c
  = name_char c.
Proof.
  unfold in_set, name_char, is_alpha; cbn [existsb citem_mem].
  char_cases.
Qed.

Lemma forallb_ext_eq A (f g : A -> bool) l :
  (forall x, f x = g x) -> forallb f l = forallb g l.
Proof. intros H. induction l as [ | x l IH ]; cbn; [ | rewrite H, IH ]; reflexivity. Qed.

(** The name pattern accepts the non-empty strings of name characters. *)
Lemma name_pattern_spec t :
  re_match Api.name_pattern t = true
  <-> t <> [] /\ forallb name_char t = true.
Proof.
  unfold re_match, Api.name_pattern.
  change (match_here (Bol :: ?p) true t) with (true && match_here p true t).
  rewrite andb_true_l, match_rep_spec. split.
  - intros (u & v & -> & Hu & Hm & H).
    rewrite (forallb_ext_eq _ _ _ in_name_set) in Hu.
    apply match_eol_spec in H. split.
    + destruct u; [ cbn in Hm; lia | discriminate ].
    + rewrite forallb_app, Hu. destruct H as [-> | ->]; reflexivity.
  - intros [Hne Ht]. exists t, []. rewrite app_nil_r.
    rewrite (forallb_ext_eq _ _ _ in_name_set).
    split; [ reflexivity | split; [ exact Ht | split ] ].
    + destruct t; [ congruence | cbn; lia ].
    + apply match_eol_spec. now left.
Qed.

(** What the e-mail pattern accepts: the strings of the form
    local@domain.tld, and those strings followed by one newline. *)
Lemma email_pattern_spec s :
  re_match Api.email_pattern s = true
  <-> email_shape s \/ exists s', s = s' ++ [10%N] /\ email_shape s'.
Proof.
  unfold re_match, Api.email_pattern.
  change (match_here (Bol :: ?p) true s) with (true && match_here p true s).
  rewrite andb_true_l, match_rep_spec. split.
  - intros (l & r1 & -> & Hl & Hlm & H).
    apply match_lit_spec in H as (r2 & -> & H).
    apply match_rep_spec in H as (d & r3 & -> & Hd & Hdm & H).
    assert (H' : match_here
                   [Lit "."; Rep [CRange "a" "z"; CRange "A" "Z"] 2; Eol] false r3 = true)
      by (destruct d; exact H).
    apply match_lit_spec in H' as (r4 & -> & H').
    apply match_rep_spec in H' as (t & r5 & -> & Ht & Htm & H').
    rewrite (forallb_ext_eq _ _ _ in_local_set) in Hl.
    rewrite (forallb_ext_eq _ _ _ in_domain_set) in Hd.
    rewrite (forallb_ext_eq _ _ _ in_alpha_set) in Ht.
    assert (Hs : email_shape (l ++ cp "@" :: d ++ cp "." :: t)).
    { exists l, d, t.
      split; [ reflexivity | split; [ | split; [ exact Hl | split; [ | auto ] ] ] ].
      - destruct l; [ cbn in Hlm; lia | discriminate ].
      - destruct d; [ cbn in Hdm; lia | discriminate ]. }
    assert (H5 : r5 = [] \/ r5 = [10%N]).
    { apply (match_eol_spec (match t with [] => false | _ => false end)). exact H'. }
    destruct H5 as [-> | ->].
    + left. now rewrite app_nil_r.
    + right. exists (l ++ cp "@" :: d ++ cp "." :: t). split; [ | exact Hs ].
      rewrite <- app_assoc. cbn. rewrite <- app_assoc. reflexivity.
  - assert (Shape : forall r5 l d t,
               r5 = [] \/ r5 = [10%N] ->
               l <> [] -> forallb local_char l = true ->
               d <> [] -> forallb domain_char d = true ->
               (2 <= List.length t)%nat -> forallb is_alpha t = true ->
               exists u v,
                 l ++ cp "@" :: d ++ cp "." :: t ++ r5 = u ++ v
                 /\ forallb (in_set [CRange "a" "z"; CRange "A" "Z"; CRange "0" "9";
                                     COne "."; COne "_"; COne "%"; COne "+"; COne "-"]) u
                    = true
                 /\ (1 <= List.length u)%nat
                 /\ match_here
                      [Lit "@";
                       Rep [CRange "a" "z"; CRange "A" "Z"; CRange "0" "9";
                            COne "."; COne "-"] 1;
                       Lit "."; Rep [CRange "a" "z"; CRange "A" "Z"] 2; Eol]
                      (match u with [] => true | _ => false end) v = true).
    { intros r5 l d t H5 Hl Hlc Hd Hdc Ht Htc.
      exists l, (cp "@" :: d ++ cp "." :: t ++ r5).
      rewrite (forallb_ext_eq _ _ _ in_local_set).
      split; [ reflexivity | split; [ exact Hlc | split ] ];
        [ destruct l; [ congruence | cbn; lia ] | ].
      apply match_lit_spec. eexists; split; [ reflexivity | ].
      apply match_rep_spec. exists d, (cp "." :: t ++ r5).
      rewrite (forallb_ext_eq _ _ _ in_domain_set).
      split; [ reflexivity | split; [ exact Hdc | split ] ];
        [ destruct d; [ congruence | cbn; lia ] | ].
      assert (G : match_here [Lit "."; Rep [CRange "a" "z"; CRange "A" "Z"] 2; Eol]
                    false (cp "." :: t ++ r5) = true).
      { apply match_lit_spec. eexists; split; [ reflexivity | ].
        apply match_rep_spec. exists t, r5.
        rewrite (forallb_ext_eq _ _ _ in_alpha_set).
        split; [ reflexivity | split; [ exact Htc | split; [ exact Ht | ] ] ].
        apply match_eol_spec. exact H5. }
      destruct d; [ congruence | exact G ]. }
    intros [ (l & d & t & -> & Hl & Hlc & Hd & Hdc & Ht & Htc)
           | (s' & -> & l & d & t & -> & Hl & Hlc & Hd & Hdc & Ht & Htc) ].
    + destruct (Shape [] l d t) as (u & v & E & H); auto.
      rewrite app_nil_r in E. exists u, v. now rewrite <- E.
    + destruct (Shape [10%N] l d t) as (u & v & E & H); auto.
      exists u, v. rewrite <- E. split; [ | exact H ].
      rewrite <- app_assoc. cbn. rewrite <- app_assoc. reflexivity.
Qed.

(** A string of the e-mail shape ends in a letter. *)
Lemma email_shape_last s :
  email_shape s -> exists s' c, s = s' ++ [c] /\ is_alpha c = true.
Proof.
  intros (l & d & t & -> & _ & _ & _ & _ & Ht & Htc).
  destruct (exists_last (l := t)) as (t' & c & ->).
  { destruct t; [ cbn in Ht; lia | discriminate ]. }
  exists (l ++ cp "@" :: d ++ cp "." :: t'), c. split.
  - rewrite <- app_assoc. cbn. rewrite <- app_assoc. reflexivity.
  - rewrite forallb_app in Htc. apply andb_true_iff in Htc as [_ Hc].
    cbn in Hc. now rewrite andb_true_r in Hc.
Qed.

End Matcher.

(** ** Properties of the batch aggregator *)

(** C1. For every list of paths, each path yields exactly one outcome:
    processed on its own it leaves one FileSummary and no ProcessingError,
    or one ProcessingError and no FileSummary; in any state an iteration of
    the loop ends normally and appends just that record; the loop over the
    whole list ends normally and appends, path by path, what each path
    leaves, so a failure never keeps the later paths from being processed;
    the call returns the summaries, and summaries and error records
    together are as many as the paths. *)
Theorem one_outcome_per_path :
  forall (B : builtins) (FS : filesystem) (paths : list pyval) (s : Refactor.state),
    (forall path,
        (exists r, summaries_of B FS path = [r] /\ failures_of B FS path = [])
        \/ (exists e, summaries_of B FS path = [] /\ failures_of B FS path = [e]))
    /\ (forall path s0,
          exists l,
            Refactor.process_path B FS path s0
            = (Return tt,
               extend l (summaries_of B FS path) (failures_of B FS path) s0))
    /\ (exists l,
          for_each paths (Refactor.process_path B FS) s
          = (Return tt,
             extend l (flat_map (summaries_of B FS) paths)
               (flat_map (failures_of B FS) paths) s))
    /\ fst (Refactor.process_user_files B FS (PyList paths) s)
       = Return (flat_map (summaries_of B FS) paths)
    /\ (paths <> [] ->
        Refactor.errors (snd (Refactor.process_user_files B FS (PyList paths) s))
        = flat_map (failures_of B FS) paths)
    /\ List.length (flat_map (summaries_of B FS) paths)
       + List.length (flat_map (failures_of B FS) paths)
       = List.length paths.
Proof.
  intros B FS paths s. repeat split.
  - intros path.
    destruct (one_record B FS path) as [ (r & Hr & He & _) | (e & Hr & He & _) ];
      [ left; exists r | right; exists e ]; auto.
  - intros path s0. destruct (process_path_run B FS path) as (l & He).
    exists l. apply He.
  - destruct (for_each_effect B FS paths) as (l & He). exists l. apply He.
  - apply process_user_files_returns.
  - intros Hne. destruct (process_user_files_run B FS s Hne) as (l & ->).
    reflexivity.
  - apply flat_map_lengths.
Qed.

(** The sample batch: three paths, one summary and two error records. *)
Lemma one_outcome_per_path_witness :
  Refactor.errors
    (snd (Refactor.process_user_files sample_builtins sample_fs
            (PyList (map PyStr sample_paths)) empty_state))
  = flat_map (failures_of sample_builtins sample_fs) (map PyStr sample_paths).
Proof.
  apply (one_outcome_per_path sample_builtins sample_fs (map PyStr sample_paths)
           empty_state).
  discriminate.
Defined.

(** C2, the claim as stated, fails on its own example: for the object
    [{"users":[{"value":5},{"value":"x"},{"novalue":1}]}] the refactor
    emits the summary with [user_count] 3 and [total_value] 5.0, while
    [original.py] raises TypeError on [5 + "x"] and the human-written
    refactor logs that error and returns no summary for the file. *)
Lemma references_emit_nothing_for_the_sample :
  fst (Refactor.process_user_files sample_builtins sample_fs
         (PyList [PyStr (lit "good.json")]) empty_state)
  = Return [{| file := lit "good.json"; user_count := 3; total_value := NFloat five |}]
  /\ Original.process_user_files sample_fs [lit "good.json"] tt
     = (Raise (Builtin TypeError
                 (lit "unsupported operand type(s) for +: 'int' and 'str'")), tt)
  /\ fst (HumanWritten.process_user_files sample_fs [lit "good.json"]
            (nil : list log_record))
     = Return [].
Proof. repeat split; reflexivity. Qed.

(** C2, amended. For every file that is processed and whose top-level
    object has a [users] list, the summary the refactor emits has
    [user_count] equal to the raw length of the list and [total_value]
    equal to the running binary64 sum, from 0, of the [value] fields of the
    object entries that [float] accepts, an absent field counting as 0;
    such a file is processed whenever no object entry holds an integer
    beyond the float range. For the sample batch (one path missing, one
    not JSON, one holding the object above) the call returns the single
    summary with [user_count] 3 and a [total_value] that equals 5, and
    records two errors. The reference variants report the raw list length
    whenever they emit a summary, but emit none for the sample object:
    [original.py] raises TypeError, the human-written refactor skips the
    file. *)
Theorem summary_counts_entries_and_sums_floats :
  forall (B : builtins) (FS : filesystem),
    (forall p d users r,
        fs_json FS p = Return (PyDict d) ->
        dict_lookup (lit "users") d = Some (PyList users) ->
        summaries_of B FS (PyStr p) = [r] ->
        file r = p
        /\ user_count r = List.length users
        /\ total_value r = float_sum (coercible_values B users))
    /\ (forall p d users,
          fs_is_file FS p = Return true ->
          fs_json FS p = Return (PyDict d) ->
          dict_lookup (lit "users") d = Some (PyList users) ->
          values_in_range B users = true ->
          exists r, summaries_of B FS (PyStr p) = [r])
    /\ (float_of_str B (lit "x") = None ->
        forall s,
          fst (Refactor.process_user_files B sample_fs
                 (PyList (map PyStr sample_paths)) s)
          = Return [{| file := lit "good.json"; user_count := 3;
                       total_value := NFloat five |}]
          /\ num_eq_Z (NFloat five) 5 = true
          /\ map pe_file (flat_map (failures_of B sample_fs) (map PyStr sample_paths))
             = [PyStr (lit "missing.json"); PyStr (lit "broken.json")])
    /\ (forall p d users r,
          dict_lookup (lit "users") d = Some (PyList users) ->
          summarize p (PyDict d) = Return r ->
          user_count r = List.length users)
    /\ (forall (S : Type) (s : S),
          Original.process_user_files sample_fs [lit "good.json"] s
          = (Raise (Builtin TypeError
                      (lit "unsupported operand type(s) for +: 'int' and 'str'")), s))
    /\ (forall (S : Type) (L : Logging S) (s : S),
          fst (HumanWritten.process_user_files sample_fs [lit "good.json"] s)
          = Return []).
Proof.
  intros B FS.
  assert (General : forall FS' p d users r,
             fs_json FS' p = Return (PyDict d) ->
             dict_lookup (lit "users") d = Some (PyList users) ->
             summaries_of B FS' (PyStr p) = [r] ->
             file r = p
             /\ user_count r = List.length users
             /\ total_value r = float_sum (coercible_values B users)).
  { intros FS' p d users r Hj Hu Hr.
    destruct (summaries_of_spec B FS' _ Hr) as (Hp & _ & d' & Hj' & _ & users' & Hg & Hc & Ht).
    injection Hp as Hp. rewrite <- Hp in *.
    rewrite Hj in Hj'. injection Hj' as <-.
    unfold dict_get in Hg. rewrite Hu in Hg. injection Hg as <-. auto. }
  assert (Emits : forall FS' p d users,
             fs_is_file FS' p = Return true ->
             fs_json FS' p = Return (PyDict d) ->
             dict_lookup (lit "users") d = Some (PyList users) ->
             values_in_range B users = true ->
             exists r, summaries_of B FS' (PyStr p) = [r]
                       /\ failures_of B FS' (PyStr p) = []).
  { intros FS' p d users Hf Hj Hu Hv.
    destruct (@extract_list B d p users Hu Hv) as (t & l & He).
    eexists. exact (@process_path_extracted B FS' p d _ _ Hf Hj He). }
  split; [ apply General | split ];
    [ | split; [ | split; [ | split ] ] ].
  - intros p d users Hf Hj Hu Hv.
    destruct (Emits FS p d users Hf Hj Hu Hv) as (r & Hr & _). now exists r.
  - intros Hx s. rewrite process_user_files_returns.
    assert (Hx' : float_of_str B [120%N] = None) by exact Hx.
    assert (Hv : values_in_range B sample_users = true).
    { cbn. now rewrite Hx'. }
    destruct (Emits sample_fs (lit "good.json") _ sample_users
                eq_refl eq_refl eq_refl Hv) as (r & Hr & Hfail).
    destruct (General sample_fs (lit "good.json") _ sample_users r
                eq_refl eq_refl Hr) as (Hfile & Hcount & Htotal).
    assert (Htot : float_sum (coercible_values B sample_users) = NFloat five).
    { unfold float_sum. cbn [coercible_values sample_users flat_map].
      cbn [dict_get dict_lookup lit]. cbn. rewrite Hx'. reflexivity. }
    rewrite Htot in Htotal.
    assert (r = {| file := lit "good.json"; user_count := 3;
                   total_value := NFloat five |}) as Er.
    { destruct r; cbn in *; subst; reflexivity. }
    subst r. repeat split.
    + cbn [map sample_paths flat_map]. rewrite Hr. reflexivity.
    + cbn [map sample_paths flat_map]. rewrite Hfail. reflexivity.
  - intros p d users r Hu Hs. unfold summarize, dict_get in Hs.
    rewrite Hu in Hs. cbn in Hs.
    destruct (sum_get_value users (NInt 0)); [ | discriminate ].
    now injection Hs as <-.
  - intros S s. reflexivity.
  - intros S L s. reflexivity.
Qed.

Lemma summary_counts_entries_and_sums_floats_witness :
  fst (Refactor.process_user_files sample_builtins sample_fs
         (PyList (map PyStr sample_paths)) empty_state)
  = Return [{| file := lit "good.json"; user_count := 3; total_value := NFloat five |}]
  /\ num_eq_Z (NFloat five) 5 = true
  /\ map pe_file (flat_map (failures_of sample_builtins sample_fs)
                    (map PyStr sample_paths))
     = [PyStr (lit "missing.json"); PyStr (lit "broken.json")].
Proof.
  apply (summary_counts_entries_and_sums_floats sample_builtins sample_fs).
  reflexivity.
Defined.

(** C3. An argument that is not a list makes [process_user_files] raise
    ValueError("file_paths must be a list") before anything else happens;
    the empty list is accepted: the call returns the empty list, raises
    nothing and records no error. *)
Theorem non_list_argument_is_rejected :
  forall (B : builtins) (FS : filesystem) (file_paths : pyval) (s : Refactor.state),
    is_list file_paths = false ->
    Refactor.process_user_files B FS file_paths s
    = (Raise (Builtin ValueError (lit "file_paths must be a list")), s)
    /\ fst (Refactor.process_user_files B FS (PyList []) s) = Return []
    /\ Refactor.errors (snd (Refactor.process_user_files B FS (PyList []) s))
       = Refactor.errors s
    /\ Refactor.results (snd (Refactor.process_user_files B FS (PyList []) s))
       = Refactor.results s.
Proof.
  intros B FS file_paths s Hl.
  rewrite process_user_files_empty.
  destruct s as [lg rs es]; cbn; rewrite !app_nil_r.
  destruct file_paths; try discriminate Hl; auto.
Qed.

Lemma non_list_argument_is_rejected_witness :
  Refactor.process_user_files sample_builtins sample_fs
    (PyStr (lit "not-a-list")) empty_state
  = (Raise (Builtin ValueError (lit "file_paths must be a list")), empty_state)
  /\ fst (Refactor.process_user_files sample_builtins sample_fs (PyList []) empty_state)
     = Return []
  /\ Refactor.errors
       (snd (Refactor.process_user_files sample_builtins sample_fs (PyList []) empty_state))
     = Refactor.errors empty_state
  /\ Refactor.results
       (snd (Refactor.process_user_files sample_builtins sample_fs (PyList []) empty_state))
     = Refactor.results empty_state.
Proof.
  apply (non_list_argument_is_rejected sample_builtins sample_fs
           (PyStr (lit "not-a-list")) empty_state).
  reflexivity.
Defined.

(** C4. For every parsed JSON object handed to the extraction step: when
    the [users] key is absent, [extract_user_data] returns the summary with
    [user_count] 0 and [total_value] 0 (and logs a warning), and the file
    yields that FileSummary and no error record; when [users] is present
    but not a list, it raises FileProcessingError with the reason
    "'users' field must be a list", and the file yields a ProcessingError
    with that reason and no FileSummary. *)
Theorem users_absent_or_not_a_list :
  forall (B : builtins) (FS : filesystem) (d : dict) (p : str) (s : Refactor.state),
    (dict_lookup (lit "users") d = None ->
     fst (Refactor.extract_user_data B d p s)
     = Return {| file := p; user_count := 0; total_value := NInt 0 |}
     /\ (fs_is_file FS p = Return true ->
         fs_json FS p = Return (PyDict d) ->
         summaries_of B FS (PyStr p)
         = [{| file := p; user_count := 0; total_value := NInt 0 |}]
         /\ failures_of B FS (PyStr p) = []))
    /\ (forall v,
          dict_lookup (lit "users") d = Some v ->
          is_list v = false ->
          Refactor.extract_user_data B d p s
          = (Raise (FileProcessingError p (lit "'users' field must be a list") None), s)
          /\ (fs_is_file FS p = Return true ->
              fs_json FS p = Return (PyDict d) ->
              summaries_of B FS (PyStr p) = []
              /\ failures_of B FS (PyStr p)
                 = [{| pe_file := PyStr p;
                       pe_error := lit "'users' field must be a list" |}])).
Proof.
  intros B FS d p s. split.
  - intros Hn. pose proof (@extract_absent B d p Hn) as He. split.
    + now rewrite He.
    + intros Hf Hj. exact (@process_path_extracted B FS p d _ _ Hf Hj He).
  - intros v Hv Hl. pose proof (@extract_not_list B d p v Hv Hl) as He. split.
    + rewrite He. now rewrite extend_nil.
    + intros Hf Hj. exact (@process_path_extracted B FS p d _ _ Hf Hj He).
Qed.

Lemma users_absent_or_not_a_list_witness :
  (summaries_of sample_builtins sample_fs (PyStr (lit "nousers.json"))
   = [{| file := lit "nousers.json"; user_count := 0; total_value := NInt 0 |}]
   /\ failures_of sample_builtins sample_fs (PyStr (lit "nousers.json")) = [])
  /\ (summaries_of sample_builtins sample_fs (PyStr (lit "badusers.json")) = []
      /\ failures_of sample_builtins sample_fs (PyStr (lit "badusers.json"))
         = [{| pe_file := PyStr (lit "badusers.json");
               pe_error := lit "'users' field must be a list" |}]).
Proof.
  split.
  - apply (users_absent_or_not_a_list sample_builtins sample_fs
             [(lit "name", PyStr (lit "batch"))] (lit "nousers.json") empty_state);
      reflexivity.
  - apply (proj2 (users_absent_or_not_a_list sample_builtins sample_fs
                    [(lit "users", PyStr (lit "everyone"))] (lit "badusers.json")
                    empty_state) (PyStr (lit "everyone")));
      reflexivity.
Defined.

(** ** Properties of the validator and the handler *)

Lemma validate_email_spec v :
  Api.validate_email v = true
  <-> exists s, v = PyStr s
                /\ (email_shape s \/ exists s', s = s' ++ [10%N] /\ email_shape s').
Proof.
  unfold Api.validate_email. destruct v as [ | b | z | f | s | l | d ];
    try (cbn; rewrite ?orb_true_r;
         split; [ discriminate | intros (s0 & E & _); discriminate ]).
  destruct s as [ | c s ].
  - cbn. split; [ discriminate | ].
    intros (s0 & E & H). injection E as <-.
    destruct H as [ H | (s' & E & _) ].
    + destruct (email_shape_last H) as (s' & c & E & _). now destruct s'.
    + now destruct s'.
  - cbn [truthy is_str negb orb]. rewrite email_pattern_spec. split.
    + intros H. now exists (c :: s).
    + intros (s0 & E & H). now injection E as <-.
Qed.

(** C5. [validate_email] does not return true exactly for the strings of
    the pattern local@domain.tld: because [$] also matches before a final
    newline, the input "a@b.com\n", which is not of that form, is
    accepted. What it accepts is: the strings of the form, and those
    strings followed by one newline; every non-string and the empty string
    are rejected. *)
Theorem validate_email_accepts_trailing_newline :
  Api.validate_email (PyStr (lit "a@b.com" ++ [10%N])) = true
  /\ ~ email_shape (lit "a@b.com" ++ [10%N])
  /\ email_shape (lit "a@b.com")
  /\ (forall v,
        Api.validate_email v = true
        <-> exists s, v = PyStr s
                      /\ (email_shape s
                          \/ exists s', s = s' ++ [10%N] /\ email_shape s')).
Proof.
  split; [ reflexivity | split; [ | split; [ | exact validate_email_spec ] ] ].
  - intros H. destruct (email_shape_last H) as (s' & c & E & Hc).
    apply app_inj_tail in E as [_ <-]. discriminate Hc.
  - exists (lit "a"), (lit "b"), (lit "com"). cbn. repeat split; try discriminate; lia.
Qed.

(** C6, the claim as stated, fails in three places: " a" has length 2 and
    only letters and spaces but is invalid, because the length is taken
    after stripping; a space followed by 100 letters has length 101 and
    only valid characters but is valid; "a<TAB>b" holds a character that is
    no letter, space, hyphen or apostrophe but is valid, because the
    pattern admits every whitespace character. *)
Lemma validate_name_departs_from_plain_rule :
  (List.length (lit " a") = 2%nat
   /\ forallb plain_name_char (lit " a") = true
   /\ Api.validate_name (PyStr (lit " a"))
      = (false, lit "Name must be at least 2 characters long"))
  /\ (List.length (cp " " :: repeat (cp "a") 100) = 101%nat
      /\ forallb plain_name_char (cp " " :: repeat (cp "a") 100) = true
      /\ Api.validate_name (PyStr (cp " " :: repeat (cp "a") 100)) = (true, []))
  /\ (existsb (fun c => negb (plain_name_char c)) [cp "a"; 9%N; cp "b"] = true
      /\ Api.validate_name (PyStr [cp "a"; 9%N; cp "b"]) = (true, [])).
Proof. repeat split; vm_compute; reflexivity. Qed.

Lemma validate_name_unfold s :
  s <> [] ->
  Api.validate_name (PyStr s)
  = if (List.length (strip s) <? 2)%nat
    then (false, lit "Name must be at least 2 characters long")
    else if (100 <? List.length (strip s))%nat
         then (false, lit "Name must not exceed 100 characters")
         else if negb (Re.re_match Api.name_pattern (strip s))
              then (false, lit "Name contains invalid characters")
              else (true, []).
Proof. destruct s; [ congruence | reflexivity ]. Qed.

Lemma name_pattern_false t :
  (2 <= List.length t)%nat ->
  Re.re_match Api.name_pattern t = forallb name_char t.
Proof.
  intros Ht. destruct (forallb name_char t) eqn:E.
  - apply name_pattern_spec. split; [ | exact E ].
    destruct t; [ cbn in Ht; lia | discriminate ].
  - destruct (Re.re_match Api.name_pattern t) eqn:M; [ | reflexivity ].
    apply name_pattern_spec in M as [_ M]. congruence.
Qed.

Lemma digit_not_name_char c : is_digit c = true -> name_char c = false.
Proof.
  unfold is_digit. intros Hd. apply andb_true_iff in Hd as [H0 H9].
  apply N.leb_le in H0, H9.
  change (cp "0") with 48%N in H0. change (cp "9") with 57%N in H9.
  destruct c as [ | p ]; [ lia | ].
  repeat (destruct p as [ p | p | ]; try lia; try reflexivity).
Qed.

(** C6, amended. With [t] the name stripped of leading and trailing
    whitespace: a name whose [t] has 2 to 100 characters, all of them
    letters, whitespace, hyphens or apostrophes, is valid; every string of
    length 1 is invalid; a name whose [t] has more than 100 characters is
    invalid; a name that holds a digit, or any other character that is no
    letter, whitespace, hyphen or apostrophe, is invalid; and the message
    is that of the first rule violated, in the order: non-empty string, at
    least 2 characters, at most 100 characters, valid characters. *)
Theorem validate_name_rules :
  forall s : str,
    let t := strip s in
    (s = [] ->
     Api.validate_name (PyStr s) = (false, lit "Name must be a non-empty string"))
    /\ (s <> [] -> (List.length t < 2)%nat ->
        Api.validate_name (PyStr s)
        = (false, lit "Name must be at least 2 characters long"))
    /\ ((100 < List.length t)%nat ->
        Api.validate_name (PyStr s)
        = (false, lit "Name must not exceed 100 characters"))
    /\ ((2 <= List.length t <= 100)%nat -> forallb name_char t = false ->
        Api.validate_name (PyStr s) = (false, lit "Name contains invalid characters"))
    /\ ((2 <= List.length t <= 100)%nat -> forallb name_char t = true ->
        Api.validate_name (PyStr s) = (true, []))
    /\ (List.length s = 1%nat -> fst (Api.validate_name (PyStr s)) = false)
    /\ (forall c, In c s -> name_char c = false ->
                  fst (Api.validate_name (PyStr s)) = false)
    /\ (forall c, In c s -> is_digit c = true ->
                  fst (Api.validate_name (PyStr s)) = false)
    /\ (forall v, is_str v = false ->
                  Api.validate_name v = (false, lit "Name must be a non-empty string")).
Proof.
  intros s t.
  assert (Hne : (0 < List.length t)%nat -> s <> []).
  { intros H ->. cbn in H. lia. }
  assert (Bad : forall c, In c s -> name_char c = false ->
                          fst (Api.validate_name (PyStr s)) = false).
  { intros c Hin Hc.
    assert (Hs : s <> []) by (intros ->; destruct Hin).
    rewrite (validate_name_unfold Hs). fold t.
    destruct (List.length t <? 2)%nat eqn:E1; [ reflexivity | ].
    destruct (100 <? List.length t)%nat eqn:E2; [ reflexivity | ].
    apply Nat.ltb_ge in E1.
    rewrite (name_pattern_false _ E1).
    assert (Hf : forallb name_char t = false).
    { destruct (forallb name_char t) eqn:F; [ | reflexivity ].
      rewrite forallb_forall in F. rewrite <- Hc. symmetry. apply F.
      apply strip_keeps; [ exact Hin | ].
      unfold name_char in Hc. apply orb_false_iff in Hc as [Hc _].
      apply orb_false_iff in Hc as [Hc _]. now apply orb_false_iff in Hc as [_ Hc]. }
    now rewrite Hf. }
  split; [ now intros -> | ].
  split; [ intros Hs Hl; rewrite (validate_name_unfold Hs); fold t;
           now apply Nat.ltb_lt in Hl as -> | ].
  split; [ intros Hl; rewrite (validate_name_unfold (Hne ltac:(lia))); fold t;
           assert (E1 : (List.length t <? 2)%nat = false) by (apply Nat.ltb_ge; lia);
           rewrite E1; now apply Nat.ltb_lt in Hl as -> | ].
  assert (Mid : (2 <= List.length t <= 100)%nat ->
                Api.validate_name (PyStr s)
                = if negb (forallb name_char t)
                  then (false, lit "Name contains invalid characters")
                  else (true, [])).
  { intros Hl. rewrite (validate_name_unfold (Hne ltac:(lia))); fold t.
    assert (E1 : (List.length t <? 2)%nat = false) by (apply Nat.ltb_ge; lia).
    assert (E2 : (100 <? List.length t)%nat = false) by (apply Nat.ltb_ge; lia).
    rewrite E1, E2, name_pattern_false by lia. reflexivity. }
  split; [ intros Hl Hf; rewrite (Mid Hl), Hf; reflexivity | ].
  split; [ intros Hl Hf; rewrite (Mid Hl), Hf; reflexivity | ].
  split; [ | split; [ exact Bad | split ] ].
  - intros Hl.
    assert (Hs : s <> []) by (intros ->; discriminate).
    rewrite (validate_name_unfold Hs); fold t.
    assert (E1 : (List.length t <? 2)%nat = true).
    { apply Nat.ltb_lt. pose proof (strip_length s). fold t in H. lia. }
    now rewrite E1.
  - intros c Hin Hd. apply (Bad c Hin). now apply digit_not_name_char.
  - intros v Hv. unfold Api.validate_name. rewrite Hv. cbn [negb].
    now rewrite orb_true_r.
Qed.

Lemma validate_name_rules_witness :
  Api.validate_name (PyStr (lit "Jo")) = (true, []).
Proof.
  apply (validate_name_rules (lit "Jo")); [ cbn; lia | reflexivity ].
Defined.

(** The [try] block of [create_user] answers 400 or 201 when it returns. *)
Lemma create_user_try_status (S : Type) (L : Logging S) get_json (s s' : S) body status :
  Api.create_user_try get_json s = (Return (body, status), s') ->
  status = 400%Z \/ status = 201%Z.
Proof.
  unfold Api.create_user_try, bind, perform, ret, raise, log, modify.
  destruct get_json as [data | e]; [ | discriminate ].
  destruct data as [ | b | z | f | t | l | d ];
    [ cbn; intros H; inversion H; subst; auto | .. ];
    (destruct (Api.validate_user_data _ s) as [ [ [ [valid msg] vd ] | e ] s1 ];
     [ | discriminate ];
     destruct valid;
     [ destruct (dict_lookup (lit "email") vd);
       [ destruct (dict_lookup (lit "name") vd) | ]
     | ];
     cbn; try discriminate; intros H; inversion H; subst; auto).
Qed.

(** C7. Whenever an exception escapes the [try] block of [create_user],
    the handler returns status 500 with the fixed body
    [internal_error_body]; the exception's text goes to the log only, so
    the response is the same whatever was raised; and every response with
    status 500 carries that body. *)
Theorem unexpected_exception_gives_generic_500 :
  forall (S : Type) (L : Logging S) (get_json : outcome pyval) (s s' : S) (e : exn),
    Api.create_user_try get_json s = (Raise e, s') ->
    Api.create_user get_json s
    = (Return (Api.internal_error_body, 500%Z),
       write_log (ERROR, [Txt "Unexpected error in create_user: "; FStr (exn_str e)]) s')
    /\ (forall g s0 body,
          fst (Api.create_user g s0) = Return (body, 500%Z) ->
          body = Api.internal_error_body)
    /\ (forall g s0, exists r, fst (Api.create_user g s0) = Return r).
Proof.
  intros S L get_json s s' e H. split; [ | split ].
  - unfold Api.create_user, try_except. rewrite H. reflexivity.
  - intros g s0 body. unfold Api.create_user, try_except.
    destruct (Api.create_user_try g s0) as [ [ [body' st] | e' ] s1 ] eqn:E; cbn.
    + intros H'. inversion H'; subst.
      destruct (create_user_try_status _ _ _ E); discriminate.
    + now intros [= <-].
  - intros g s0. unfold Api.create_user, try_except.
    destruct (Api.create_user_try g s0) as [ [ r | e' ] s1 ]; cbn; eauto.
Qed.

Lemma unexpected_exception_gives_generic_500_witness :
  Api.create_user
    (Raise (Builtin (OtherException "BadRequest")
              (lit "400 Bad Request: Failed to decode JSON object")))
    (nil : list log_record)
  = (Return (Api.internal_error_body, 500%Z),
     [(ERROR, [Txt "Unexpected error in create_user: ";
               FStr (lit "400 Bad Request: Failed to decode JSON object")])]).
Proof.
  exact (proj1 (@unexpected_exception_gives_generic_500 (list log_record) Logging_list
                  (Raise (Builtin (OtherException "BadRequest")
                            (lit "400 Bad Request: Failed to decode JSON object")))
                  [] []
                  (Builtin (OtherException "BadRequest")
                     (lit "400 Bad Request: Failed to decode JSON object"))
                  eq_refl)).
Defined.

(** ** Further properties of the batch aggregator *)

(** C8. [process_user_files] is deterministic over the file system: run a
    second time on the same paths, from the state the first run left (its
    log grown, the files unchanged), it returns the same list of
    summaries; indeed the returned list is the same from every state. *)
Theorem reprocessing_yields_identical_summaries :
  forall (B : builtins) (FS : filesystem) (paths : list pyval) (s : Refactor.state),
    let first := Refactor.process_user_files B FS (PyList paths) s in
    let second := Refactor.process_user_files B FS (PyList paths) (snd first) in
    fst second = fst first
    /\ (exists rs, fst first = Return rs)
    /\ (forall s', fst (Refactor.process_user_files B FS (PyList paths) s') = fst first).
Proof.
  intros B FS paths s first second. unfold second, first.
  rewrite !process_user_files_returns. repeat split.
  - eexists; reflexivity.
  - intros s'. apply process_user_files_returns.
Qed.

(** C9. The list [process_user_files] returns keeps the input order: it is
    the concatenation, in input order, of what each path leaves ([] for a
    failed path, its one summary for a successful one), so the files of the
    returned summaries are exactly the successful paths in the order in
    which they stand in the input. *)
Theorem results_keep_input_order :
  forall (B : builtins) (FS : filesystem) (paths : list pyval) (s : Refactor.state),
    fst (Refactor.process_user_files B FS (PyList paths) s)
    = Return (flat_map (summaries_of B FS) paths)
    /\ map (fun r => PyStr (file r)) (flat_map (summaries_of B FS) paths)
       = filter (succeeds B FS) paths
    /\ (forall path,
          summaries_of B FS path = []
          \/ exists r, summaries_of B FS path = [r] /\ path = PyStr (file r)).
Proof.
  intros B FS paths s. split; [ apply process_user_files_returns | split ].
  - induction paths as [ | path rest IH ]; [ reflexivity | ].
    cbn [flat_map filter]. rewrite map_app, IH. unfold succeeds.
    destruct (one_record B FS path) as [ (r & -> & _ & ->) | (e & -> & _) ];
      reflexivity.
  - intros path.
    destruct (one_record B FS path) as [ (r & Hr & _ & Hp) | (e & Hr & _) ];
      [ right; exists r | left ]; auto.
Qed.

(** C10. [load_json_file] never returns None: it returns a dict or raises;
    hence no error record carries the reason 'Failed to load file',
    neither the record of a single path nor any record of a whole run that
    starts with an empty error collection. *)
Theorem load_json_file_never_returns_none :
  forall (B : builtins) (FS : filesystem),
    (forall p s, fst (Refactor.load_json_file FS p s) <> Return None)
    /\ (forall p s d, fst (Refactor.load_json_file FS p s) = Return (Some d) ->
                      fs_json FS p = Return (PyDict d))
    /\ (forall path,
          Forall (fun e => pe_error e <> failed_to_load) (failures_of B FS path))
    /\ (forall paths s,
          Forall (fun e => pe_error e <> failed_to_load)
            (Refactor.errors
               (snd (Refactor.process_user_files B FS (PyList paths)
                       (Refactor.set_errors [] s))))).
Proof.
  intros B FS.
  assert (Hload : forall p s, load_spec FS p (fst (Refactor.load_json_file FS p s))).
  { intros p s. destruct (load_json_file_effect FS p) as (o & l & He & Hs).
    now rewrite He. }
  assert (Hone : forall path,
             Forall (fun e => pe_error e <> failed_to_load) (failures_of B FS path)).
  { intros path.
    destruct (one_record B FS path) as [ (r & _ & -> & _) | (e & _ & -> & Hk) ];
      constructor; [ | constructor ].
    now apply known_reason_not_failed_to_load. }
  repeat split.
  - intros p s E. specialize (Hload p s). rewrite E in Hload. exact Hload.
  - intros p s d E. specialize (Hload p s). rewrite E in Hload. exact Hload.
  - exact Hone.
  - intros paths s. destruct paths as [ | path rest ].
    + rewrite process_user_files_empty. cbn. constructor.
    + destruct (@process_user_files_run B FS (path :: rest) (Refactor.set_errors [] s))
        as (l & ->); [ discriminate | ].
      cbn [snd Refactor.errors]. apply Forall_flat_map, Forall_forall.
      intros x _. apply Hone.
Qed.

Lemma load_json_file_never_returns_none_witness :
  fs_json sample_fs (lit "good.json") = Return sample_json.
Proof.
  apply (proj1 (proj2 (load_json_file_never_returns_none sample_builtins sample_fs))
           (lit "good.json") empty_state).
  reflexivity.
Defined.

(** * Further properties *)

(** ** Stripping and lower-casing *)

Section Normalising.

Lemma lstrip_head c s : is_space c = false -> lstrip (c :: s) = c :: s.
Proof. intros H. cbn. now rewrite H. Qed.

Lemma lstrip_idem s : lstrip (lstrip s) = lstrip s.
Proof.
  induction s as [ | c s IH ]; [ reflexivity | ].
  cbn. destruct (is_space c) eqn:E; [ exact IH | now apply lstrip_head ].
Qed.

Lemma rstrip_keep w z : is_space z = false -> rstrip (w ++ [z]) = w ++ [z].
Proof.
  intros H. unfold rstrip. rewrite rev_app_distr. cbn [rev app].
  rewrite (@lstrip_head z _ H). change (z :: rev w) with ([z] ++ rev w).
  rewrite rev_app_distr, rev_involutive. reflexivity.
Qed.

Lemma rstrip_drop w z : is_space z = true -> rstrip (w ++ [z]) = rstrip w.
Proof.
  intros H. unfold rstrip. rewrite rev_app_distr. cbn. now rewrite H.
Qed.

Lemma rstrip_idem s : rstrip (rstrip s) = rstrip s.
Proof. unfold rstrip. now rewrite rev_involutive, lstrip_idem. Qed.

Lemma lstrip_snoc w z : is_space z = false -> lstrip (w ++ [z]) = lstrip w ++ [z].
Proof.
  intros H. induction w as [ | c w IH ]; cbn.
  - now rewrite H.
  - destruct (is_space c); [ exact IH | reflexivity ].
Qed.

Lemma rstrip_cons c u : is_space c = false -> rstrip (c :: u) = c :: rstrip u.
Proof.
  intros H. unfold rstrip. cbn [rev]. rewrite (@lstrip_snoc _ c H).
  rewrite rev_app_distr. reflexivity.
Qed.

(** Stripping is idempotent. *)
Lemma strip_idem s : strip (strip s) = strip s.
Proof.
  unfold strip.
  assert (Hl : lstrip (rstrip (lstrip s)) = rstrip (lstrip s)).
  { destruct (lstrip s) as [ | c u ] eqn:E; [ reflexivity | ].
    assert (Hc : is_space c = false).
    { destruct (is_space c) eqn:Ec; [ | reflexivity ].
      pose proof (lstrip_idem s) as Hi. rewrite E in Hi. cbn in Hi.
      rewrite Ec in Hi.
      pose proof (lstrip_length u) as Hlen. rewrite Hi in Hlen. cbn in Hlen. lia. }
    rewrite (@rstrip_cons c _ Hc). now apply lstrip_head. }
  rewrite Hl. apply rstrip_idem.
Qed.

(** A string between two characters that are no whitespace is left as it is,
    and a final newline after it is removed. *)
Lemma strip_clean c u z :
  is_space c = false -> is_space z = false ->
  strip (c :: u ++ [z]) = c :: u ++ [z]
  /\ strip ((c :: u ++ [z]) ++ [10%N]) = c :: u ++ [z].
Proof.
  intros Hc Hz. unfold strip. split.
  - rewrite (@lstrip_head c _ Hc). exact (@rstrip_keep (c :: u) z Hz).
  - cbn [app]. rewrite (@lstrip_head c _ Hc).
    change (c :: (u ++ [z]) ++ [10%N]) with ((c :: u ++ [z]) ++ [10%N]).
    rewrite rstrip_drop by reflexivity. exact (@rstrip_keep (c :: u) z Hz).
Qed.

End Normalising.

(** Turns a Boolean fact about the comparisons of a code point into
    arithmetic, and back. *)
Ltac cp_values :=
  change (cp "a") with 97%N in *; change (cp "z") with 122%N in *;
  change (cp "A") with 65%N in *; change (cp "Z") with 90%N in *;
  change (cp "0") with 48%N in *; change (cp "9") with 57%N in *;
  change (cp ".") with 46%N in *; change (cp "_") with 95%N in *;
  change (cp "%") with 37%N in *; change (cp "+") with 43%N in *;
  change (cp "-") with 45%N in *; change (cp "@") with 64%N in *;
  change (cp "'") with 39%N in *; change (cp " ") with 32%N in *.

Ltac bool_to_arith :=
  repeat (progress (rewrite ?orb_true_iff, ?andb_true_iff, ?N.leb_le, ?N.eqb_eq,
                      ?orb_false_iff, ?andb_false_iff, ?N.leb_gt, ?N.eqb_neq in *)).

Section Characters.

Lemma local_not_space c : local_char c = true -> is_space c = false.
Proof.
  unfold local_char, is_alpha, is_digit, is_space. cp_values.
  intros H. bool_to_arith. lia.
Qed.

Lemma alpha_not_space c : is_alpha c = true -> is_space c = false.
Proof.
  unfold is_alpha, is_space. cp_values. intros H. bool_to_arith. lia.
Qed.

Lemma lower_char_cases c :
  (is_upper c = true /\ lower_char c = (c + 32)%N)
  \/ (is_upper c = false /\ lower_char c = c).
Proof.
  unfold lower_char, is_upper. cp_values.
  destruct ((65 <=? c) && (c <=? 90))%N; auto.
Qed.

Lemma lower_char_not_upper c : is_upper (lower_char c) = false.
Proof.
  destruct (lower_char_cases c) as [ [Hu ->] | [Hu ->] ]; [ | exact Hu ].
  unfold is_upper in *. cp_values. bool_to_arith. lia.
Qed.

Lemma lower_char_idem c : lower_char (lower_char c) = lower_char c.
Proof.
  destruct (lower_char_cases (lower_char c)) as [ [Hu _] | [_ H] ]; [ | exact H ].
  now rewrite lower_char_not_upper in Hu.
Qed.

Lemma lower_local c : local_char c = true -> local_char (lower_char c) = true.
Proof.
  intros H. destruct (lower_char_cases c) as [ [Hu ->] | [Hu ->] ]; [ | exact H ].
  unfold local_char, is_alpha, is_digit, is_upper in *. cp_values.
  bool_to_arith. lia.
Qed.

Lemma lower_domain c : domain_char c = true -> domain_char (lower_char c) = true.
Proof.
  intros H. destruct (lower_char_cases c) as [ [Hu ->] | [Hu ->] ]; [ | exact H ].
  unfold domain_char, is_alpha, is_digit, is_upper in *. cp_values.
  bool_to_arith. lia.
Qed.

Lemma lower_alpha c : is_alpha c = true -> is_alpha (lower_char c) = true.
Proof.
  intros H. destruct (lower_char_cases c) as [ [Hu ->] | [Hu ->] ]; [ | exact H ].
  unfold is_alpha, is_upper in *. cp_values. bool_to_arith. lia.
Qed.

Lemma forallb_lower (P : N -> bool) l :
  (forall c, P c = true -> P (lower_char c) = true) ->
  forallb P l = true -> forallb P (lower l) = true.
Proof.
  intros HP. induction l as [ | c l IH ]; cbn; [ reflexivity | ].
  rewrite !andb_true_iff. intros [Hc Hl]. auto.
Qed.

Lemma lower_idem s : lower (lower s) = lower s.
Proof.
  unfold lower. rewrite map_map. apply map_ext. exact lower_char_idem.
Qed.

Lemma lower_no_upper s : forallb (fun c => negb (is_upper c)) (lower s) = true.
Proof.
  induction s as [ | c s IH ]; [ reflexivity | ].
  cbn [lower map forallb]. rewrite lower_char_not_upper. exact IH.
Qed.

(** Lower-casing keeps the form local@domain.tld. *)
Lemma lower_shape s : email_shape s -> email_shape (lower s).
Proof.
  intros (l & d & t & -> & Hl & Hlc & Hd & Hdc & Ht & Htc).
  exists (lower l), (lower d), (lower t).
  split; [ | split; [ | split; [ | split; [ | split; [ | split ] ] ] ] ].
  - unfold lower. rewrite map_app. cbn [map]. rewrite map_app. reflexivity.
  - destruct l; [ congruence | discriminate ].
  - apply forallb_lower; [ exact lower_local | exact Hlc ].
  - destruct d; [ congruence | discriminate ].
  - apply forallb_lower; [ exact lower_domain | exact Hdc ].
  - unfold lower. now rewrite length_map.
  - apply forallb_lower; [ exact lower_alpha | exact Htc ].
Qed.

(** A string of the form starts and ends with a character that is no
    whitespace. *)
Lemma shape_ends s :
  email_shape s ->
  exists c u z, s = c :: u ++ [z] /\ is_space c = false /\ is_space z = false.
Proof.
  intros H. destruct (email_shape_last H) as (s' & z & -> & Hz).
  destruct H as (l & d & t & E & Hl & Hlc & _).
  destruct l as [ | c l ]; [ congruence | ].
  cbn in Hlc. apply andb_true_iff in Hlc as [Hc _].
  destruct s' as [ | c' u ].
  - cbn in E. injection E as _ E. now destruct l.
  - cbn in E. injection E as -> _.
    exists c, u, z. split; [ reflexivity | ].
    split; [ now apply local_not_space | now apply alpha_not_space ].
Qed.

End Characters.

(** ** The validator and the handler *)

Section Validator.
Context {S : Type} {L : Logging S}.

Lemma validate_email_str v :
  Api.validate_email v = true -> exists e, v = PyStr e.
Proof. intros H. apply validate_email_spec in H as (e & -> & _). now exists e. Qed.

Lemma validate_name_str v m :
  Api.validate_name v = (true, m) -> exists n, v = PyStr n /\ m = [].
Proof.
  destruct v as [ | b | z | f | n | l | d ];
    try (unfold Api.validate_name; cbn [is_str negb]; rewrite orb_true_r; discriminate).
  destruct n as [ | c n ]; [ discriminate | ].
  rewrite validate_name_unfold by discriminate.
  destruct (_ <? 2)%nat; [ discriminate | ].
  destruct (100 <? _)%nat; [ discriminate | ].
  destruct (negb _); [ discriminate | ].
  intros [= <-]. now exists (c :: n).
Qed.

Lemma validate_user_data_valid data e n (s : S) :
  valid_user data e n ->
  Api.validate_user_data data s
  = (Return (true, [],
             [(lit "email", PyStr (lower (strip e))); (lit "name", PyStr (strip n))]),
     s).
Proof.
  intros (d & -> & He & Hn & Hve & Hvn).
  unfold Api.validate_user_data, dict_get. rewrite He, Hn, Hve, Hvn. reflexivity.
Qed.

Lemma validate_user_data_cases data (s : S) :
  exists ok msg vd,
    Api.validate_user_data data s = (Return (ok, msg, vd), s)
    /\ ((ok = true /\ msg = []
         /\ exists e n,
              valid_user data e n
              /\ vd = [(lit "email", PyStr (lower (strip e)));
                       (lit "name", PyStr (strip n))])
        \/ (ok = false /\ vd = []
            /\ (((forall d, data <> PyDict d)
                 /\ msg = lit "Request body must be a JSON object")
                \/ (exists d, data = PyDict d
                              /\ dict_lookup (lit "email") d = None
                              /\ msg = lit "Missing required field: email")
                \/ (exists d ev, data = PyDict d
                                 /\ dict_lookup (lit "email") d = Some ev
                                 /\ dict_lookup (lit "name") d = None
                                 /\ msg = lit "Missing required field: name")
                \/ (exists d ev nv, data = PyDict d
                                    /\ dict_lookup (lit "email") d = Some ev
                                    /\ dict_lookup (lit "name") d = Some nv
                                    /\ Api.validate_email ev = false
                                    /\ msg = lit "Invalid email format")
                \/ (exists d ev nv, data = PyDict d
                                    /\ dict_lookup (lit "email") d = Some ev
                                    /\ dict_lookup (lit "name") d = Some nv
                                    /\ Api.validate_email ev = true
                                    /\ Api.validate_name nv = (false, msg))))).
Proof.
  destruct data as [ | b | z | f | t | l | d ];
    try (exists false; eexists; exists []; split; [ reflexivity | ];
         right; split; [ reflexivity | split; [ reflexivity | ] ];
         left; split; [ discriminate | reflexivity ]).
  destruct (dict_lookup (lit "email") d) as [ev | ] eqn:He.
  2:{ exists false; eexists; exists []. split.
      - unfold Api.validate_user_data. rewrite He. reflexivity.
      - right. split; [ reflexivity | split; [ reflexivity | ] ].
        right; left. exists d. auto. }
  destruct (dict_lookup (lit "name") d) as [nv | ] eqn:Hn.
  2:{ exists false; eexists; exists []. split.
      - unfold Api.validate_user_data. rewrite He, Hn. reflexivity.
      - right. split; [ reflexivity | split; [ reflexivity | ] ].
        right; right; left. exists d, ev. auto. }
  destruct (Api.validate_email ev) eqn:Hve.
  2:{ exists false; eexists; exists []. split.
      - unfold Api.validate_user_data, dict_get. rewrite He, Hn, Hve. reflexivity.
      - right. split; [ reflexivity | split; [ reflexivity | ] ].
        right; right; right; left. exists d, ev, nv. auto. }
  destruct (Api.validate_name nv) as [ [ | ] m ] eqn:Hvn.
  - destruct (validate_email_str _ Hve) as (e & ->).
    destruct (validate_name_str _ Hvn) as (n & -> & ->).
    assert (Hv : valid_user (PyDict d) e n) by (exists d; auto).
    exists true, []; eexists. split; [ exact (validate_user_data_valid s Hv) | ].
    left. split; [ reflexivity | split; [ reflexivity | ] ]. now exists e, n.
  - exists false, m, []. split.
    + unfold Api.validate_user_data, dict_get. rewrite He, Hn, Hve, Hvn. reflexivity.
    + right. split; [ reflexivity | split; [ reflexivity | ] ].
      right; right; right; right. exists d, ev, nv. auto.
Qed.

Lemma create_user_valid data e n (s : S) :
  valid_user data e n ->
  fst (Api.create_user (Return data) s)
  = Return (created_body (lower (strip e)) (strip n), 201%Z).
Proof.
  intros Hv. pose proof (validate_user_data_valid s Hv) as Hr.
  destruct Hv as (d & -> & _).
  unfold Api.create_user, try_except, Api.create_user_try, bind, perform.
  rewrite Hr. reflexivity.
Qed.

Lemma create_user_invalid data (s : S) msg vd :
  data <> PyNone ->
  Api.validate_user_data data s = (Return (false, msg, vd), s) ->
  fst (Api.create_user (Return data) s)
  = Return (bad_request_body (lit "Validation failed") msg, 400%Z).
Proof.
  intros Hn Hr.
  unfold Api.create_user, try_except, Api.create_user_try, bind, perform.
  destruct data; try congruence; rewrite Hr; reflexivity.
Qed.

End Validator.

(** X1. [validate_user_data] never raises and leaves the state as it is. It
    succeeds exactly when the body is an object whose [email] and [name]
    are strings that pass [validate_email] and [validate_name], and then
    returns the record with the e-mail stripped and lower-cased and the
    name stripped; otherwise it returns the empty record with the message
    of the first check that fails, in the order: not an object, [email]
    missing, [name] missing, e-mail invalid, name invalid. *)
Theorem validate_user_data_outcome :
  forall (S : Type) (L : Logging S) (data : pyval) (s : S),
    (exists ok msg vd,
        Api.validate_user_data data s = (Return (ok, msg, vd), s)
        /\ ((ok = true /\ msg = []
             /\ exists e n,
                  valid_user data e n
                  /\ vd = [(lit "email", PyStr (lower (strip e)));
                           (lit "name", PyStr (strip n))])
            \/ (ok = false /\ vd = []
                /\ (((forall d, data <> PyDict d)
                     /\ msg = lit "Request body must be a JSON object")
                    \/ (exists d, data = PyDict d
                                  /\ dict_lookup (lit "email") d = None
                                  /\ msg = lit "Missing required field: email")
                    \/ (exists d ev, data = PyDict d
                                     /\ dict_lookup (lit "email") d = Some ev
                                     /\ dict_lookup (lit "name") d = None
                                     /\ msg = lit "Missing required field: name")
                    \/ (exists d ev nv, data = PyDict d
                                        /\ dict_lookup (lit "email") d = Some ev
                                        /\ dict_lookup (lit "name") d = Some nv
                                        /\ Api.validate_email ev = false
                                        /\ msg = lit "Invalid email format")
                    \/ (exists d ev nv, data = PyDict d
                                        /\ dict_lookup (lit "email") d = Some ev
                                        /\ dict_lookup (lit "name") d = Some nv
                                        /\ Api.validate_email ev = true
                                        /\ Api.validate_name nv = (false, msg))))))
    /\ (forall e n,
          valid_user data e n ->
          Api.validate_user_data data s
          = (Return (true, [],
                     [(lit "email", PyStr (lower (strip e)));
                      (lit "name", PyStr (strip n))]), s)).
Proof.
  intros S L data s. split.
  - apply validate_user_data_cases.
  - intros e n Hv. now apply validate_user_data_valid.
Qed.

Lemma validate_user_data_outcome_witness :
  Api.validate_user_data
    (PyDict [(lit "email", PyStr (lit "Ann@Example.COM"));
             (lit "name", PyStr (lit " Ann Lee "))])
    (nil : list log_record)
  = (Return (true, [],
             [(lit "email", PyStr (lower (strip (lit "Ann@Example.COM"))));
              (lit "name", PyStr (strip (lit " Ann Lee ")))]), []).
Proof.
  apply (proj2 (validate_user_data_outcome Logging_list
                  (PyDict [(lit "email", PyStr (lit "Ann@Example.COM"));
                           (lit "name", PyStr (lit " Ann Lee "))])
                  (nil : list log_record))).
  eexists. repeat split; reflexivity.
Defined.

(** X2. The record [validate_user_data] returns on success is clean and is
    a fixed point of the validation: its e-mail is of the form
    local@domain.tld (a final newline that [validate_email] let through is
    gone) and has no upper-case letter, its name has no whitespace at
    either end, and validating the returned record again succeeds and
    returns the same record. *)
Theorem normalised_record_is_a_fixed_point :
  forall (S : Type) (L : Logging S) (data : pyval) (e n : str) (s : S),
    valid_user data e n ->
    email_shape (lower (strip e))
    /\ forallb (fun c => negb (is_upper c)) (lower (strip e)) = true
    /\ strip (strip n) = strip n
    /\ valid_user
         (PyDict [(lit "email", PyStr (lower (strip e))); (lit "name", PyStr (strip n))])
         (lower (strip e)) (strip n)
    /\ Api.validate_user_data
         (PyDict [(lit "email", PyStr (lower (strip e))); (lit "name", PyStr (strip n))]) s
       = (Return (true, [],
                  [(lit "email", PyStr (lower (strip e))); (lit "name", PyStr (strip n))]),
          s).
Proof.
  intros S L data e n s (d & -> & He & Hn & Hve & Hvn).
  assert (Hshape : exists s0, strip e = s0 /\ email_shape s0).
  { apply validate_email_spec in Hve as (e' & [= <-] & [ H | (s' & -> & H) ]).
    - destruct (shape_ends H) as (c & u & z & -> & Hc & Hz).
      exists (c :: u ++ [z]). split; [ | exact H ].
      exact (proj1 (@strip_clean c u z Hc Hz)).
    - destruct (shape_ends H) as (c & u & z & -> & Hc & Hz).
      exists (c :: u ++ [z]). split; [ | exact H ].
      exact (proj2 (@strip_clean c u z Hc Hz)). }
  destruct Hshape as (s0 & Es & Hs0). rewrite Es.
  pose proof (lower_shape Hs0) as Hl.
  assert (Hstrip : strip (lower s0) = lower s0).
  { destruct (shape_ends Hl) as (c & u & z & -> & Hc & Hz).
    exact (proj1 (@strip_clean c u z Hc Hz)). }
  assert (Hname : Api.validate_name (PyStr (strip n)) = (true, [])).
  { destruct n as [ | c n ]; [ discriminate Hvn | ].
    rewrite validate_name_unfold in Hvn by discriminate.
    destruct (List.length (strip (c :: n)) <? 2)%nat eqn:E1; [ discriminate | ].
    assert (Hne : strip (c :: n) <> []).
    { intros E. rewrite E in E1. discriminate. }
    rewrite (validate_name_unfold Hne), strip_idem, E1. exact Hvn. }
  assert (Hv : valid_user
                 (PyDict [(lit "email", PyStr (lower s0)); (lit "name", PyStr (strip n))])
                 (lower s0) (strip n)).
  { eexists. split; [ reflexivity | ].
    split; [ reflexivity | split; [ reflexivity | split; [ | exact Hname ] ] ].
    apply validate_email_spec. eexists. split; [ reflexivity | now left ]. }
  split; [ exact Hl | ].
  split; [ apply lower_no_upper | ].
  split; [ apply strip_idem | ].
  split; [ exact Hv | ].
  rewrite (validate_user_data_valid s Hv), Hstrip, lower_idem, strip_idem.
  reflexivity.
Qed.

Lemma normalised_record_is_a_fixed_point_witness :
  email_shape (lower (strip (lit "Ann@Example.COM" ++ [10%N])))
  /\ forallb (fun c => negb (is_upper c))
       (lower (strip (lit "Ann@Example.COM" ++ [10%N]))) = true
  /\ strip (strip (lit " Ann Lee ")) = strip (lit " Ann Lee ")
  /\ valid_user
       (PyDict [(lit "email", PyStr (lower (strip (lit "Ann@Example.COM" ++ [10%N]))));
                (lit "name", PyStr (strip (lit " Ann Lee ")))])
       (lower (strip (lit "Ann@Example.COM" ++ [10%N]))) (strip (lit " Ann Lee "))
  /\ Api.validate_user_data
       (PyDict [(lit "email", PyStr (lower (strip (lit "Ann@Example.COM" ++ [10%N]))));
                (lit "name", PyStr (strip (lit " Ann Lee ")))])
       (nil : list log_record)
     = (Return (true, [],
                [(lit "email", PyStr (lower (strip (lit "Ann@Example.COM" ++ [10%N]))));
                 (lit "name", PyStr (strip (lit " Ann Lee ")))]), []).
Proof.
  apply (normalised_record_is_a_fixed_point Logging_list
           (data := PyDict [(lit "email", PyStr (lit "Ann@Example.COM" ++ [10%N]));
                            (lit "name", PyStr (lit " Ann Lee "))])).
  eexists. repeat split; reflexivity.
Defined.

Section Handler.
Context {S : Type} {L : Logging S}.

(** The four ways a request ends. *)
Lemma create_user_cases (get_json : outcome pyval) (s : S) :
  (exists e, get_json = Raise e
             /\ fst (Api.create_user get_json s)
                = Return (Api.internal_error_body, 500%Z))
  \/ (get_json = Return PyNone
      /\ fst (Api.create_user get_json s)
         = Return (bad_request_body (lit "Request body required")
                     (lit "Expected JSON request body with user data"), 400%Z))
  \/ (exists data e n,
        get_json = Return data /\ valid_user data e n
        /\ fst (Api.create_user get_json s)
           = Return (created_body (lower (strip e)) (strip n), 201%Z))
  \/ (exists data msg,
        get_json = Return data /\ data <> PyNone
        /\ (forall e n, ~ valid_user data e n)
        /\ fst (Api.create_user get_json s)
           = Return (bad_request_body (lit "Validation failed") msg, 400%Z)).
Proof.
  destruct get_json as [data | e].
  2:{ left. exists e. split; reflexivity. }
  destruct (validate_user_data_cases data s)
    as (ok & msg & vd & Hr & [ (-> & -> & e & n & Hv & ->) | (-> & -> & _) ]).
  - right; right; left. exists data, e, n.
    split; [ reflexivity | split; [ exact Hv | now apply create_user_valid ] ].
  - destruct data as [ | b | z | f | t | l | d ];
      [ right; left; split; reflexivity | .. ];
      (right; right; right; eexists; exists msg;
       split; [ reflexivity | split; [ discriminate | split ] ];
       [ intros e n Hv; rewrite (validate_user_data_valid s Hv) in Hr; discriminate
       | apply (create_user_invalid (vd := [])); [ discriminate | exact Hr ] ]).
Qed.

End Handler.

(** X3. [create_user] never raises and answers 201, 400 or 500. A body that
    is JSON null gives 400 'Request body required'; an object whose
    [email] and [name] pass validation gives 201 with id 1, the e-mail
    stripped and lower-cased, the name stripped and the fixed timestamp,
    and nothing else gives 201; any other body gives 400 'Validation
    failed' with a message; 500 is answered only when reading the request
    body raised. *)
Theorem create_user_responses :
  forall (S : Type) (L : Logging S) (get_json : outcome pyval) (s : S),
    (exists body status,
        fst (Api.create_user get_json s) = Return (body, status)
        /\ (status = 201%Z \/ status = 400%Z \/ status = 500%Z))
    /\ (get_json = Return PyNone ->
        fst (Api.create_user get_json s)
        = Return (bad_request_body (lit "Request body required")
                    (lit "Expected JSON request body with user data"), 400%Z))
    /\ (forall data e n,
          get_json = Return data -> valid_user data e n ->
          fst (Api.create_user get_json s)
          = Return (created_body (lower (strip e)) (strip n), 201%Z))
    /\ (forall data,
          get_json = Return data -> data <> PyNone ->
          (forall e n, ~ valid_user data e n) ->
          exists msg,
            fst (Api.create_user get_json s)
            = Return (bad_request_body (lit "Validation failed") msg, 400%Z))
    /\ (forall body,
          fst (Api.create_user get_json s) = Return (body, 201%Z) ->
          exists data e n,
            get_json = Return data /\ valid_user data e n
            /\ body = created_body (lower (strip e)) (strip n))
    /\ (forall body,
          fst (Api.create_user get_json s) = Return (body, 500%Z) ->
          exists e, get_json = Raise e).
Proof.
  intros S L get_json s.
  destruct (create_user_cases get_json s)
    as [ (e & Hg & Hr)
       | [ (Hg & Hr)
         | [ (data & e & n & Hg & Hv & Hr)
           | (data & msg & Hg & Hn & Hv & Hr) ] ] ];
    rewrite Hr.
  - split; [ eexists; eexists; split; [ reflexivity | auto ] | ].
    split; [ intros E; rewrite Hg in E; discriminate | ].
    split; [ intros data e' n' E; rewrite Hg in E; discriminate | ].
    split; [ intros data E; rewrite Hg in E; discriminate | ].
    split; [ intros body E; discriminate | ].
    intros body _. now exists e.
  - split; [ eexists; eexists; split; [ reflexivity | auto ] | ].
    split; [ reflexivity | ].
    split; [ intros data e n E (d & -> & _); rewrite Hg in E; discriminate | ].
    split; [ intros data E Hne; rewrite Hg in E; injection E as <-; congruence | ].
    split; intros body E; discriminate.
  - split; [ eexists; eexists; split; [ reflexivity | auto ] | ].
    split; [ intros E; rewrite Hg in E; injection E as ->;
             destruct Hv as (d & Hd & _); discriminate | ].
    split.
    { intros data' e' n' E Hv'. rewrite Hg in E. injection E as <-.
      destruct Hv as (d & -> & He & Hnm & _).
      destruct Hv' as (d' & [= <-] & He' & Hnm' & _).
      rewrite He in He'. rewrite Hnm in Hnm'.
      injection He' as <-. injection Hnm' as <-. reflexivity. }
    split.
    { intros data' E _ Hnv. rewrite Hg in E. injection E as <-.
      now destruct (Hnv e n). }
    split.
    { intros body [= <-]. now exists data, e, n. }
    intros body E; discriminate.
  - split; [ eexists; eexists; split; [ reflexivity | auto ] | ].
    split; [ intros E; rewrite Hg in E; injection E as ->; congruence | ].
    split.
    { intros data' e n E Hv'. rewrite Hg in E. injection E as <-.
      now destruct (Hv e n). }
    split; [ intros data' _ _ _; now exists msg | ].
    split; intros body E; discriminate.
Qed.

Lemma create_user_responses_witness :
  fst (Api.create_user
         (Return (PyDict [(lit "email", PyStr (lit "Ann@Example.COM"));
                          (lit "name", PyStr (lit " Ann Lee "))]))
         (nil : list log_record))
  = Return (created_body (lower (strip (lit "Ann@Example.COM")))
              (strip (lit " Ann Lee ")), 201%Z).
Proof.
  apply (proj1 (proj2 (proj2 (create_user_responses Logging_list
                                (Return (PyDict [(lit "email", PyStr (lit "Ann@Example.COM"));
                                                 (lit "name", PyStr (lit " Ann Lee "))]))
                                (nil : list log_record))))
           _ _ _ eq_refl).
  eexists. repeat split; reflexivity.
Defined.

(** ** The load step and the path check *)

Section Loading.
Import Refactor.
Variable B : builtins.
Variable FS : filesystem.
Local Open Scope py_scope.

(** A load that fails decides the record of the path. *)
Lemma process_path_load_failed p fp m oe l :
  fs_is_file FS p = Return true ->
  effect (load_json_file FS p) (Raise (FileProcessingError fp m oe)) l [] [] ->
  summaries_of B FS (PyStr p) = []
  /\ failures_of B FS (PyStr p) = [{| pe_file := PyStr fp; pe_error := m |}].
Proof.
  intros Hf Hl.
  destruct (validate_file_path_effect FS p) as (ok & lv & Hv & Hok).
  assert (ok = true) by now apply Hok. subst ok.
  assert (Hp : exists l', effect (process_path B FS (PyStr p)) (Return tt) l'
                            [] [{| pe_file := PyStr fp; pe_error := m |}]).
  { eexists. unfold process_path. eapply logs_then_try_raise.
    - eapply (effect_bind _ Hv); cbn.
      eapply effect_bind_raise. exact Hl.
    - cbn. apply effect_errors_append. }
  destruct Hp as (l' & Hp). unfold summaries_of, failures_of.
  destruct (effect_run Hp empty_state) as (_ & -> & -> & _); auto.
Qed.

Lemma load_not_an_object p v :
  fs_json FS p = Return v ->
  (forall d, v <> PyDict d) ->
  effect (load_json_file FS p)
    (Raise (FileProcessingError p
              (lit "Unexpected error: File does not contain a JSON object (file: "
               ++ p ++ lit ")")
              (Some (FileProcessingError p
                       (lit "File does not contain a JSON object") None))))
    [(ERROR, [Txt "Unexpected error loading "; FStr p; Txt ": ";
              FExn (FileProcessingError p
                      (lit "File does not contain a JSON object") None)])]
    [] [].
Proof.
  intros Hj Hv s. unfold load_json_file, try_except, bind, perform.
  rewrite Hj.
  destruct v as [ | b | z | f | t | l | d ]; try (now destruct (Hv d));
    cbn; unfold extend; cbn; rewrite !app_nil_r; reflexivity.
Qed.

Lemma load_raised p c t :
  fs_json FS p = Raise (Builtin c t) ->
  forall s,
    fst (load_json_file FS p s)
    = Raise (FileProcessingError p
               (match c with
                | FileNotFoundError => lit "File not found"
                | JSONDecodeError => lit "Invalid JSON format: " ++ t
                | PermissionError => lit "Permission denied"
                | UnicodeDecodeError => lit "File encoding error"
                | _ => lit "Unexpected error: " ++ t
                end)
               (Some (Builtin c t))).
Proof.
  intros Hj s. unfold load_json_file, try_except, bind, perform. rewrite Hj.
  destruct c; reflexivity.
Qed.

Lemma path_not_a_string path :
  is_str path = false ->
  summaries_of B FS path = []
  /\ failures_of B FS path
     = [{| pe_file := PyStr (py_str B path); pe_error := lit "Invalid path type" |}].
Proof.
  intros H. destruct path; try discriminate H; split; reflexivity.
Qed.

Lemma path_not_accessible p :
  fs_is_file FS p <> Return true ->
  summaries_of B FS (PyStr p) = []
  /\ failures_of B FS (PyStr p)
     = [{| pe_file := PyStr p;
           pe_error := lit "File does not exist or is not accessible" |}].
Proof.
  intros H. unfold summaries_of, failures_of, process_path, validate_file_path,
    try_except, bind, perform.
  destruct (fs_is_file FS p) as [ [ | ] | e ]; [ congruence | | ];
    split; reflexivity.
Qed.

End Loading.

(** X4. [load_json_file] gives each failure a reason by the class of the
    exception: "File not found", "Invalid JSON format: <text>",
    "Permission denied", "File encoding error", and
    "Unexpected error: <text>" for every other class (a plain ValueError or
    an IsADirectoryError among them). A top-level value that is not an
    object falls under the last case: the FileProcessingError raised for
    it inside the [try] is caught by the function's own [except Exception],
    so the file is reported with
    "Unexpected error: File does not contain a JSON object (file: <path>)",
    also in the error record of the path. *)
Theorem load_json_file_reasons :
  forall (B : builtins) (FS : filesystem) (p : str) (s : Refactor.state),
    (forall c t,
        fs_json FS p = Raise (Builtin c t) ->
        fst (Refactor.load_json_file FS p s)
        = Raise (FileProcessingError p
                   (match c with
                    | FileNotFoundError => lit "File not found"
                    | JSONDecodeError => lit "Invalid JSON format: " ++ t
                    | PermissionError => lit "Permission denied"
                    | UnicodeDecodeError => lit "File encoding error"
                    | _ => lit "Unexpected error: " ++ t
                    end)
                   (Some (Builtin c t))))
    /\ (forall v,
          fs_json FS p = Return v ->
          (forall d, v <> PyDict d) ->
          fst (Refactor.load_json_file FS p s)
          = Raise (FileProcessingError p
                     (lit "Unexpected error: File does not contain a JSON object (file: "
                      ++ p ++ lit ")")
                     (Some (FileProcessingError p
                              (lit "File does not contain a JSON object") None)))
          /\ (fs_is_file FS p = Return true ->
              summaries_of B FS (PyStr p) = []
              /\ failures_of B FS (PyStr p)
                 = [{| pe_file := PyStr p;
                       pe_error :=
                         lit "Unexpected error: File does not contain a JSON object (file: "
                         ++ p ++ lit ")" |}])).
Proof.
  intros B FS p s. split.
  - intros c t Hj. now apply load_raised.
  - intros v Hj Hv. pose proof (load_not_an_object FS p Hj Hv) as He. split.
    + now rewrite He.
    + intros Hf. exact (@process_path_load_failed B FS p _ _ _ _ Hf He).
Qed.

Lemma load_json_file_reasons_witness :
  fst (Refactor.load_json_file
         {| fs_is_file := fun _ => Return true;
            fs_json := fun _ => Return (PyList [PyInt 1; PyInt 2]) |}
         (lit "list.json") empty_state)
  = Raise (FileProcessingError (lit "list.json")
             (lit "Unexpected error: File does not contain a JSON object (file: "
              ++ lit "list.json" ++ lit ")")
             (Some (FileProcessingError (lit "list.json")
                      (lit "File does not contain a JSON object") None))).
Proof.
  apply (proj2 (load_json_file_reasons sample_builtins
                  {| fs_is_file := fun _ => Return true;
                     fs_json := fun _ => Return (PyList [PyInt 1; PyInt 2]) |}
                  (lit "list.json") empty_state) (PyList [PyInt 1; PyInt 2])).
  - reflexivity.
  - discriminate.
Defined.

(** X5. A path is checked before any file is opened: an element of the list
    that is not a string yields the error record with its [str] and the
    reason 'Invalid path type'; a string for which the existence check
    returns false, or raises, yields the record with the reason 'File does
    not exist or is not accessible'. Neither yields a summary, whatever the
    files hold. *)
Theorem rejected_paths :
  forall (B : builtins) (FS : filesystem),
    (forall path,
        is_str path = false ->
        summaries_of B FS path = []
        /\ failures_of B FS path
           = [{| pe_file := PyStr (py_str B path); pe_error := lit "Invalid path type" |}])
    /\ (forall p,
          fs_is_file FS p <> Return true ->
          summaries_of B FS (PyStr p) = []
          /\ failures_of B FS (PyStr p)
             = [{| pe_file := PyStr p;
                   pe_error := lit "File does not exist or is not accessible" |}]).
Proof.
  intros B FS. split.
  - intros path H. now apply path_not_a_string.
  - intros p H. now apply path_not_accessible.
Qed.

Lemma rejected_paths_witness :
  (summaries_of sample_builtins sample_fs (PyInt 7) = []
   /\ failures_of sample_builtins sample_fs (PyInt 7)
      = [{| pe_file := PyStr (py_str sample_builtins (PyInt 7));
            pe_error := lit "Invalid path type" |}])
  /\ (summaries_of sample_builtins sample_fs (PyStr (lit "missing.json")) = []
      /\ failures_of sample_builtins sample_fs (PyStr (lit "missing.json"))
         = [{| pe_file := PyStr (lit "missing.json");
               pe_error := lit "File does not exist or is not accessible" |}]).
Proof.
  split.
  - apply (proj1 (rejected_paths sample_builtins sample_fs)). reflexivity.
  - apply (proj2 (rejected_paths sample_builtins sample_fs)). discriminate.
Defined.

(** ** The extraction step *)

Section Extraction.
Import Refactor.
Variable B : builtins.
Variable FS : filesystem.
Local Open Scope py_scope.

Lemma overflow_not_tolerated :
  exn_is overflow_error TypeError || exn_is overflow_error ValueError = false.
Proof. reflexivity. Qed.

(** An integer beyond the float range ends the loop with OverflowError. *)
Lemma sum_values_overflows p users :
  forall idx total,
    total_ok total ->
    values_in_range B users = false ->
    exists l, effect (sum_values B p users idx total) (Raise overflow_error) l [] [].
Proof.
  induction users as [ | user rest IH ]; intros idx total Hok Hr;
    [ discriminate Hr | ].
  cbn [values_in_range forallb] in Hr.
  assert (Skip : forall t,
             values_in_range B rest = false ->
             exists l,
               effect (log WARNING t ;; sum_values B p rest (S idx) total)
                 (Raise overflow_error) l [] []).
  { intros t Hrest. destruct (IH (S idx) total Hok Hrest) as (l & He).
    eexists; logs. }
  destruct user as [ | b | z | f | s | us | d ]; try (apply Skip; exact Hr).
  cbn [sum_values].
  set (value := dict_get d (lit "value") (PyInt 0)) in *.
  destruct (py_float B value) as [f | e] eqn:Ef.
  - cbn in Hr.
    assert (Ha : num_add_float total f = Return (add_float total f)).
    { unfold num_add_float, add_float. destruct total as [z | g]; [ | reflexivity ].
      cbn in Hok. now rewrite Hok. }
    destruct (IH (S idx) (add_float total f) I Hr) as (l & He).
    eexists. eapply logs_bind; [ | exact He ].
    eapply effect_try_return. rewrite <- Ha. logs.
  - destruct (py_float_raises _ _ Ef) as [-> | [[t ->] | [t ->]]].
    + eexists. eapply effect_bind_raise.
      eapply logs_try_raise; [ logs | rewrite overflow_not_tolerated; logs ].
    + cbn in Hr. destruct (IH (S idx) total Hok Hr) as (l & He).
      eexists. eapply logs_bind; [ | exact He ].
      eapply logs_try_raise; [ logs | cbn; logs ].
    + cbn in Hr. destruct (IH (S idx) total Hok Hr) as (l & He).
      eexists. eapply logs_bind; [ | exact He ].
      eapply logs_try_raise; [ logs | cbn; logs ].
Qed.

Lemma extract_overflows d p users :
  dict_lookup (lit "users") d = Some (PyList users) ->
  values_in_range B users = false ->
  exists l,
    effect (extract_user_data B d p)
      (Raise (FileProcessingError p
                (lit "Data extraction error: int too large to convert to float")
                (Some overflow_error)))
      l [] [].
Proof.
  intros H Hr. unfold extract_user_data. rewrite H.
  destruct (@sum_values_overflows p users 0 (NInt 0) eq_refl Hr) as (l & He).
  eexists. eapply logs_try_raise; [ logs | cbn; logs ].
Qed.

(** Each entry the loop skips is logged once, as a warning. *)
Lemma sum_values_warnings p users :
  forall idx total,
    exists o l,
      effect (sum_values B p users idx total) o l [] []
      /\ Forall (fun r => fst r = WARNING) l
      /\ (forall t, o = Return t ->
                    (List.length l + List.length (coercible_values B users)
                     = List.length users)%nat).
Proof.
  induction users as [ | user rest IH ]; intros idx total.
  - exists (Return total), []. split; [ apply effect_ret | ].
    split; [ constructor | reflexivity ].
  - assert (Skip : forall t,
               coercible_values B (user :: rest) = coercible_values B rest ->
               exists o l,
                 effect (log WARNING t ;; sum_values B p rest (S idx) total) o l [] []
                 /\ Forall (fun r => fst r = WARNING) l
                 /\ (forall t', o = Return t' ->
                                (List.length l
                                 + List.length (coercible_values B (user :: rest))
                                 = List.length (user :: rest))%nat)).
    { intros t Hc. destruct (IH (S idx) total) as (o & l & He & Hw & Hn).
      exists o, ([(WARNING, t)] ++ l).
      split; [ exact (logs_bind _ (effect_log _ _) He) | ].
      split; [ constructor; [ reflexivity | exact Hw ] | ].
      intros t' Ho. specialize (Hn t' Ho). rewrite Hc. cbn. lia. }
    destruct user as [ | b | z | f | s | us | d ]; try (apply Skip; reflexivity).
    cbn [sum_values].
    set (value := dict_get d (lit "value") (PyInt 0)).
    assert (Hc : coercible_values B (PyDict d :: rest)
                 = match py_float B value with Return f => [f] | Raise _ => [] end
                   ++ coercible_values B rest) by reflexivity.
    destruct (py_float B value) as [f | e] eqn:Ef.
    + destruct (num_add_float_cases total f) as [Ha | Ha].
      * destruct (IH (S idx) (add_float total f)) as (o & l & He & Hw & Hn).
        exists o, ([] ++ l). split.
        { eapply logs_bind; [ | exact He ].
          eapply effect_try_return. rewrite <- Ha.
          exact (logs_bind _ (effect_perform _) (effect_perform _)). }
        split; [ exact Hw | ].
        intros t' Ho. specialize (Hn t' Ho). rewrite Hc. cbn. lia.
      * exists (Raise overflow_error), ([] ++ []). split.
        { eapply effect_bind_raise. eapply logs_try_raise.
          - rewrite <- Ha. exact (logs_bind _ (effect_perform _) (effect_perform _)).
          - rewrite overflow_not_tolerated. apply effect_raise. }
        split; [ constructor | discriminate ].
    + destruct (py_float_raises _ _ Ef) as [-> | [[t ->] | [t ->]]].
      * exists (Raise overflow_error), ([] ++ []). split.
        { eapply effect_bind_raise. eapply logs_try_raise.
          - eapply effect_bind_raise. apply effect_perform.
          - rewrite overflow_not_tolerated. apply effect_raise. }
        split; [ constructor | discriminate ].
      * destruct (IH (S idx) total) as (o & l & He & Hw & Hn).
        exists o; eexists. split.
        { eapply logs_bind; [ | exact He ].
          eapply logs_try_raise.
          - eapply effect_bind_raise. apply effect_perform.
          - cbn. logs. }
        split; [ cbn; constructor; [ reflexivity | exact Hw ] | ].
        intros t' Ho. specialize (Hn t' Ho). rewrite Hc. cbn. lia.
      * destruct (IH (S idx) total) as (o & l & He & Hw & Hn).
        exists o; eexists. split.
        { eapply logs_bind; [ | exact He ].
          eapply logs_try_raise.
          - eapply effect_bind_raise. apply effect_perform.
          - cbn. logs. }
        split; [ cbn; constructor; [ reflexivity | exact Hw ] | ].
        intros t' Ho. specialize (Hn t' Ho). rewrite Hc. cbn. lia.
Qed.

End Extraction.

(** X6. Among the anomalies of single entries, one is not tolerated: when
    [users] is a list, [extract_user_data] returns a summary if no object
    entry holds an integer beyond the float range, and otherwise fails the
    whole file with the reason
    "Data extraction error: int too large to convert to float", which is
    then the error record of the path. *)
Theorem extraction_fails_on_integer_overflow :
  forall (B : builtins) (FS : filesystem) (d : dict) (p : str)
         (users : list pyval) (s : Refactor.state),
    dict_lookup (lit "users") d = Some (PyList users) ->
    (values_in_range B users = true ->
     exists t,
       fst (Refactor.extract_user_data B d p s)
       = Return {| file := p; user_count := List.length users; total_value := t |})
    /\ (values_in_range B users = false ->
        fst (Refactor.extract_user_data B d p s)
        = Raise (FileProcessingError p
                   (lit "Data extraction error: int too large to convert to float")
                   (Some overflow_error))
        /\ (fs_is_file FS p = Return true ->
            fs_json FS p = Return (PyDict d) ->
            summaries_of B FS (PyStr p) = []
            /\ failures_of B FS (PyStr p)
               = [{| pe_file := PyStr p;
                     pe_error :=
                       lit "Data extraction error: int too large to convert to float" |}])).
Proof.
  intros B FS d p users s Hu. split.
  - intros Hr. destruct (@extract_list B d p users Hu Hr) as (t & l & He).
    exists t. now rewrite He.
  - intros Hr. destruct (@extract_overflows B d p users Hu Hr) as (l & He). split.
    + now rewrite He.
    + intros Hf Hj. exact (@process_path_extracted B FS p d _ _ Hf Hj He).
Qed.

Lemma extraction_fails_on_integer_overflow_witness :
  fst (Refactor.extract_user_data sample_builtins sample_overflowing
         (lit "big.json") empty_state)
  = Raise (FileProcessingError (lit "big.json")
             (lit "Data extraction error: int too large to convert to float")
             (Some overflow_error)).
Proof.
  apply (proj2 (extraction_fails_on_integer_overflow sample_builtins sample_fs
                  sample_overflowing (lit "big.json")
                  (users := [PyDict [(lit "value", PyInt sample_big)]])
                  empty_state eq_refl)).
  vm_compute. reflexivity.
Defined.

(** X7. When [extract_user_data] returns for an object whose [users] is a
    list, it has touched nothing but the log, and it has logged one
    warning for each entry it left out of the sum: the warnings and the
    summed entries together are as many as the entries. *)
Theorem skipped_entries_are_logged :
  forall (B : builtins) (d : dict) (p : str) (users : list pyval)
         (s s' : Refactor.state) (r : FileSummary),
    dict_lookup (lit "users") d = Some (PyList users) ->
    Refactor.extract_user_data B d p s = (Return r, s') ->
    exists l,
      s' = extend l [] [] s
      /\ Forall (fun rec => fst rec = WARNING) l
      /\ (List.length l + List.length (coercible_values B users)
          = List.length users)%nat.
Proof.
  intros B d p users s s' r Hu Hrun.
  destruct (sum_values_warnings B p users 0 (NInt 0)) as (o & l & He & Hw & Hn).
  destruct o as [ t | e ].
  - assert (Hx : effect (Refactor.extract_user_data B d p)
                   (Return {| file := p; user_count := List.length users;
                              total_value := t |}) l [] []).
    { unfold Refactor.extract_user_data. rewrite Hu.
      eapply effect_try_return.
      eapply (logs_bind _ (l1 := []) (effect_ret _)). cbn.
      rewrite <- (app_nil_r l).
      eapply (logs_bind _ He). apply effect_ret. }
    rewrite Hx in Hrun. injection Hrun as _ <-.
    exists l. split; [ reflexivity | split; [ exact Hw | ] ].
    now apply (Hn t).
  - assert (Hx : exists e' l', effect (Refactor.extract_user_data B d p)
                                 (Raise e') l' [] []).
    { unfold Refactor.extract_user_data. rewrite Hu.
      destruct e as [ fp m oe | c t ]; eexists; eexists;
        (eapply logs_try_raise; [ logs | cbn; logs ]). }
    destruct Hx as (e' & l' & Hx). rewrite Hx in Hrun. discriminate.
Qed.

Lemma skipped_entries_are_logged_witness :
  exists l,
    snd (Refactor.extract_user_data sample_builtins
           [(lit "users", PyList sample_users)] (lit "good.json") empty_state)
    = extend l [] [] empty_state
    /\ Forall (fun rec => fst rec = WARNING) l
    /\ (List.length l + List.length (coercible_values sample_builtins sample_users)
        = List.length sample_users)%nat.
Proof.
  apply (@skipped_entries_are_logged sample_builtins
           [(lit "users", PyList sample_users)] (lit "good.json")
           sample_users empty_state
           (snd (Refactor.extract_user_data sample_builtins
                   [(lit "users", PyList sample_users)] (lit "good.json") empty_state))
           {| file := lit "good.json"; user_count := 3; total_value := NFloat five |}
           eq_refl).
  reflexivity.
Defined.

(** ** The log of a run *)

Section RunLog.
Import Refactor.
Variable B : builtins.
Variable FS : filesystem.
Local Open Scope py_scope.

Lemma process_user_files_log paths s :
  paths <> [] ->
  exists l,
    logged (snd (process_user_files B FS (PyList paths) s))
    = logged s
      ++ (INFO, [Txt "Processing "; FLen (List.length paths); Txt " files"])
         :: l
      ++ closing_log (flat_map (summaries_of B FS) paths)
           (flat_map (failures_of B FS) paths).
Proof.
  intros Hne.
  destruct (for_each_effect B FS paths) as (l & He).
  exists l.
  unfold process_user_files.
  destruct paths as [ | path rest ]; [ congruence | ].
  cbv iota.
  remember (path :: rest) as paths eqn:Ep.
  unfold bind at 1 2 3 4; unfold modify at 1 2; unfold log at 1, modify at 1.
  rewrite He.
  unfold bind, gets, ret, log, modify, extend, write_log, Logging_state,
    set_errors, set_results, closing_log; cbn.
  destruct (flat_map (failures_of B FS) paths) eqn:E; cbn;
    rewrite <- ?app_assoc; reflexivity.
Qed.

End RunLog.

(** X8. The errors of a run are observable in its log: over a non-empty
    list the log grows by 'Processing n files', the records of the loop,
    and 'Processing complete: a succeeded, b failed', where a is the number
    of summaries returned, b the number of error records and a + b = n;
    when b is not 0 the log ends with the warning 'Errors encountered'
    that lists every error record, and when b is 0 no such warning is
    logged at the end. *)
Theorem run_log_reports_the_errors :
  forall (B : builtins) (FS : filesystem) (paths : list pyval) (s : Refactor.state),
    paths <> [] ->
    let rs := flat_map (summaries_of B FS) paths in
    let es := flat_map (failures_of B FS) paths in
    let s' := snd (Refactor.process_user_files B FS (PyList paths) s) in
    (exists l,
        Refactor.logged s'
        = Refactor.logged s
          ++ (INFO, [Txt "Processing "; FLen (List.length paths); Txt " files"])
             :: l ++ closing_log rs es)
    /\ fst (Refactor.process_user_files B FS (PyList paths) s) = Return rs
    /\ Refactor.errors s' = es
    /\ (List.length rs + List.length es = List.length paths)%nat
    /\ (es <> [] ->
        exists l,
          Refactor.logged s'
          = l ++ [(WARNING, [Txt "Errors encountered: "; FVal (PyList (map pe_val es))])]).
Proof.
  intros B FS paths s Hne rs es s'.
  destruct (process_user_files_log B FS s Hne) as (l & Hl).
  split; [ now exists l | ].
  split; [ apply process_user_files_returns | ].
  split.
  { unfold s'. destruct (process_user_files_run B FS s Hne) as (l' & ->). reflexivity. }
  split; [ apply flat_map_lengths | ].
  intros Hes. fold rs es in Hl. fold s' in Hl. rewrite Hl.
  unfold closing_log. destruct es as [ | e es' ]; [ congruence | ].
  cbv iota.
  match goal with
  | |- exists _, ?a ++ ?b :: l ++ [?c; ?w] = _ => exists (a ++ b :: l ++ [c])
  end.
  rewrite <- app_assoc. cbn [app]. rewrite <- app_assoc. reflexivity.
Qed.

Lemma run_log_reports_the_errors_witness :
  exists l,
    Refactor.logged
      (snd (Refactor.process_user_files sample_builtins sample_fs
              (PyList (map PyStr sample_paths)) empty_state))
    = l ++ [(WARNING,
             [Txt "Errors encountered: ";
              FVal (PyList (map pe_val
                              (flat_map (failures_of sample_builtins sample_fs)
                                 (map PyStr sample_paths))))])].
Proof.
  apply (run_log_reports_the_errors sample_builtins sample_fs
           (paths := map PyStr sample_paths) empty_state);
    discriminate.
Defined.

(** ** The reference variants *)

Section References.
Context {S : Type} {L : Logging S}.
Variable FS : filesystem.

Lemma human_loop paths :
  forall acc (s : S),
    fst (HumanWritten.loop FS paths acc s)
    = Return (acc ++ flat_map (ref_summaries FS) paths).
Proof.
  induction paths as [ | path rest IH ]; intros acc s.
  - cbn. now rewrite app_nil_r.
  - cbn [HumanWritten.loop flat_map].
    unfold ref_summaries at 1, ref_outcome.
    unfold bind, try_except, perform, ret, log, modify.
    destruct (fs_json FS path) as [ data | e ].
    + destruct (summarize path data) as [ r | e ].
      * rewrite IH, <- app_assoc. reflexivity.
      * destruct (exn_is e FileNotFoundError);
          [ | destruct (exn_is e JSONDecodeError) ]; apply IH.
    + destruct (exn_is e FileNotFoundError);
        [ | destruct (exn_is e JSONDecodeError) ]; apply IH.
Qed.

Lemma original_loop paths :
  forall acc (s : S),
    Original.loop FS paths acc s
    = match first_failure FS paths with
      | None => (Return (acc ++ flat_map (ref_summaries FS) paths), s)
      | Some e => (Raise e, s)
      end.
Proof.
  induction paths as [ | path rest IH ]; intros acc s.
  - cbn. now rewrite app_nil_r.
  - cbn [Original.loop flat_map first_failure].
    unfold ref_summaries at 1, ref_outcome.
    unfold bind, perform.
    destruct (fs_json FS path) as [ data | e ]; [ | reflexivity ].
    destruct (summarize path data) as [ r | e ]; [ | reflexivity ].
    rewrite IH, <- app_assoc. reflexivity.
Qed.

End References.

Section Summarize.

Lemma sum_get_value_summable items :
  forall acc t, sum_get_value items acc = Return t -> Forall summable items.
Proof.
  induction items as [ | u rest IH ]; intros acc t H; [ constructor | ].
  cbn [sum_get_value] in H.
  destruct u as [ | b | z | f | s | l | d ]; try discriminate H.
  cbn [py_get] in H.
  destruct (num_add acc (dict_get d (lit "value") (PyInt 0))) as [ acc' | e ] eqn:Ea;
    [ | discriminate H ].
  constructor; [ | exact (IH _ _ H) ].
  exists d. split; [ reflexivity | ].
  destruct (dict_get d (lit "value") (PyInt 0)); try reflexivity; discriminate Ea.
Qed.

Lemma sum_get_value_ints us zs :
  Forall2 int_entry us zs ->
  forall a,
    sum_get_value us (NInt a) = Return (NInt (a + fold_right Z.add 0%Z zs)).
Proof.
  induction 1 as [ | u z us zs (d & -> & Hz) _ IH ]; intros a.
  - cbn. now rewrite Z.add_0_r.
  - cbn [sum_get_value py_get fold_right]. rewrite Hz. cbn [num_add].
    rewrite IH. now rewrite Z.add_assoc.
Qed.

Lemma ints_beyond_range (B : builtins) us zs :
  Forall2 int_entry us zs ->
  Exists (fun z => float_of_int z = Raise overflow_error) zs ->
  values_in_range B us = false.
Proof.
  induction 1 as [ | u z us zs (d & -> & Hz) _ IH ]; intros Hex.
  - inversion Hex.
  - cbn [values_in_range forallb]. rewrite Hz. cbn [py_float].
    inversion Hex as [ ? ? Ho | ? ? Hrest ]; subst.
    + rewrite Ho. reflexivity.
    + fold (values_in_range B us). rewrite (IH Hrest). apply andb_false_r.
Qed.

End Summarize.

(** X9. The two reference variants against each other: the human-written
    refactor never raises and returns, in input order, the summaries of
    the files that can be read and summarised; [original.py] returns that
    same list when every file can, and otherwise raises the exception of
    the first file that cannot, returning nothing. So whenever
    [original.py] returns, the human-written refactor returns the same
    list. *)
Theorem references_agree_when_original_returns :
  forall (S : Type) (L : Logging S) (FS : filesystem) (paths : list str) (s : S),
    fst (HumanWritten.process_user_files FS paths s)
    = Return (flat_map (ref_summaries FS) paths)
    /\ Original.process_user_files FS paths s
       = match first_failure FS paths with
         | None => (Return (flat_map (ref_summaries FS) paths), s)
         | Some e => (Raise e, s)
         end
    /\ (forall rs,
          fst (Original.process_user_files FS paths s) = Return rs ->
          fst (HumanWritten.process_user_files FS paths s) = Return rs).
Proof.
  intros S L FS paths s.
  assert (Hh : fst (HumanWritten.process_user_files FS paths s)
               = Return (flat_map (ref_summaries FS) paths))
    by apply (human_loop FS paths []).
  assert (Ho : Original.process_user_files FS paths s
               = match first_failure FS paths with
                 | None => (Return (flat_map (ref_summaries FS) paths), s)
                 | Some e => (Raise e, s)
                 end)
    by apply (original_loop FS paths []).
  split; [ exact Hh | split; [ exact Ho | ] ].
  intros rs Hr. rewrite Ho in Hr. rewrite Hh.
  destruct (first_failure FS paths); [ discriminate Hr | exact Hr ].
Qed.

(** X10. The references tolerate no anomaly in a file. When [summarize],
    the dictionary display both build, returns, the object has a [users]
    entry, [user_count] is its length and, if it is a list, every entry is
    an object whose [value] is an int, a bool or a float; a missing
    [users] key raises KeyError although [user_count] could be computed.
    For a list of objects with integer values the total is their exact
    integer sum. *)
Theorem references_sum_only_numeric_objects :
  forall (p : str),
    (forall data r,
        summarize p data = Return r ->
        exists d users,
          data = PyDict d
          /\ dict_lookup (lit "users") d = Some users
          /\ file r = p
          /\ py_len users = Return (user_count r)
          /\ (forall us, users = PyList us -> Forall summable us))
    /\ (forall d,
          dict_lookup (lit "users") d = None ->
          summarize p (PyDict d) = Raise (Builtin KeyError (lit "'users'")))
    /\ (forall d us zs,
          dict_lookup (lit "users") d = Some (PyList us) ->
          Forall2 int_entry us zs ->
          summarize p (PyDict d)
          = Return {| file := p; user_count := List.length us;
                      total_value := NInt (fold_right Z.add 0%Z zs) |}).
Proof.
  intros p. split; [ | split ].
  - intros data r H. unfold summarize in H.
    destruct data as [ | b | z | f | s | l | d ]; try discriminate H.
    unfold dict_get in H.
    destruct (dict_lookup (lit "users") d) as [ users | ] eqn:Hu;
      [ | discriminate H ].
    destruct (py_len users) as [ n | e ] eqn:Hn; [ | discriminate H ].
    destruct (py_iter users) as [ items | e ] eqn:Hi; [ | discriminate H ].
    destruct (sum_get_value items (NInt 0)) as [ total | e ] eqn:Hs;
      [ | discriminate H ].
    injection H as <-. exists d, users.
    split; [ reflexivity | split; [ exact Hu | split; [ reflexivity | split ] ] ].
    + exact Hn.
    + intros us ->. cbn in Hi. injection Hi as <-.
      exact (sum_get_value_summable _ _ Hs).
  - intros d Hu. unfold summarize, dict_get. rewrite Hu. reflexivity.
  - intros d us zs Hu Hz. unfold summarize, dict_get. rewrite Hu. cbn [py_len py_iter].
    rewrite (sum_get_value_ints Hz). reflexivity.
Qed.

Lemma references_sum_only_numeric_objects_witness :
  summarize (lit "ints.json")
    (PyDict [(lit "users", PyList [PyDict [(lit "value", PyInt 5)];
                                   PyDict [(lit "novalue", PyInt 1)]])])
  = Return {| file := lit "ints.json"; user_count := 2;
              total_value := NInt (fold_right Z.add 0%Z [5%Z; 0%Z]) |}.
Proof.
  apply (proj2 (proj2 (references_sum_only_numeric_objects (lit "ints.json")))
           [(lit "users", PyList [PyDict [(lit "value", PyInt 5)];
                                  PyDict [(lit "novalue", PyInt 1)]])]
           [PyDict [(lit "value", PyInt 5)]; PyDict [(lit "novalue", PyInt 1)]]
           [5%Z; 0%Z] eq_refl).
  repeat constructor; eexists; split; reflexivity.
Defined.

(** X11. The refactor is not more lenient than the references throughout:
    an object whose [users] is the empty string or the empty object is
    summarised by the references with count 0 and total 0 but fails in the
    refactor with "'users' field must be a list"; and a list of objects
    with integer values, one of them beyond the float range, is summarised
    by the references with the exact integer sum but fails in the refactor
    with "Data extraction error: int too large to convert to float". *)
Theorem refactor_rejects_what_references_accept :
  forall (B : builtins) (p : str) (d : dict) (s : Refactor.state),
    (forall v,
        v = PyStr [] \/ v = PyDict [] ->
        dict_lookup (lit "users") d = Some v ->
        summarize p (PyDict d)
        = Return {| file := p; user_count := 0; total_value := NInt 0 |}
        /\ fst (Refactor.extract_user_data B d p s)
           = Raise (FileProcessingError p (lit "'users' field must be a list") None))
    /\ (forall us zs,
          dict_lookup (lit "users") d = Some (PyList us) ->
          Forall2 int_entry us zs ->
          Exists (fun z => float_of_int z = Raise overflow_error) zs ->
          summarize p (PyDict d)
          = Return {| file := p; user_count := List.length us;
                      total_value := NInt (fold_right Z.add 0%Z zs) |}
          /\ fst (Refactor.extract_user_data B d p s)
             = Raise (FileProcessingError p
                        (lit "Data extraction error: int too large to convert to float")
                        (Some overflow_error))).
Proof.
  intros B p d s. split.
  - intros v Hv Hu. split.
    + unfold summarize, dict_get. rewrite Hu. destruct Hv as [-> | ->]; reflexivity.
    + assert (Hl : is_list v = false) by (destruct Hv as [-> | ->]; reflexivity).
      rewrite (@extract_not_list B d p v Hu Hl). reflexivity.
  - intros us zs Hu Hz Hex. split.
    + unfold summarize, dict_get. rewrite Hu. cbn [py_len py_iter].
      rewrite (sum_get_value_ints Hz). reflexivity.
    + destruct (@extract_overflows B d p us Hu (ints_beyond_range B Hz Hex)) as (l & He).
      now rewrite He.
Qed.

Lemma refactor_rejects_what_references_accept_witness :
  summarize (lit "big.json") (PyDict sample_overflowing)
  = Return {| file := lit "big.json"; user_count := 1;
              total_value := NInt (fold_right Z.add 0%Z [sample_big]) |}
  /\ fst (Refactor.extract_user_data sample_builtins sample_overflowing
            (lit "big.json") empty_state)
     = Raise (FileProcessingError (lit "big.json")
                (lit "Data extraction error: int too large to convert to float")
                (Some overflow_error)).
Proof.
  apply (proj2 (refactor_rejects_what_references_accept sample_builtins
                  (lit "big.json") sample_overflowing empty_state)
           [PyDict [(lit "value", PyInt sample_big)]] [sample_big] eq_refl).
  - repeat constructor. eexists; split; reflexivity.
  - constructor. vm_compute. reflexivity.
Defined.

(** X12. A batch can be split: the list returned for the paths [l1 ++ l2]
    is the list returned for [l1] followed by the list returned for [l2],
    whatever the states the three runs start in. *)
Theorem batch_splits :
  forall (B : builtins) (FS : filesystem) (l1 l2 : list pyval)
         (s s1 s2 : Refactor.state),
    exists r1 r2,
      fst (Refactor.process_user_files B FS (PyList l1) s1) = Return r1
      /\ fst (Refactor.process_user_files B FS (PyList l2) s2) = Return r2
      /\ fst (Refactor.process_user_files B FS (PyList (l1 ++ l2)) s)
         = Return (r1 ++ r2).
Proof.
  intros B FS l1 l2 s s1 s2.
  exists (flat_map (summaries_of B FS) l1), (flat_map (summaries_of B FS) l2).
  rewrite !process_user_files_returns, flat_map_app. auto.
Qed.
